(** * pdf_proc2: the extraction cascade, the LLM backends and the company-name
    normalizer, embedded from the Python sources under [app/].

    Conventions of the embedding.
    - A Python [str] is a [string]; a character is read as the code point of
      the same number (U+0000 .. U+00FF), with Python's own classification of
      those code points ([str.isalnum], [str.isspace], [str.lower], and the
      classes [\w] and [\s] of the [re] module).
    - [bytes] is [list byte]; [Optional[T]] is [option T].
    - [float] is the kernel's binary64 [float]; [a >= b] is [b <=? a].
    - A call that may raise returns [PyException + A]; code with effects is
      written in the monad [M St], whose state survives a raised exception.
    - [await] is sequencing: [process] awaits each backend call before it
      goes on. *)

From Stdlib Require Import Bool Arith Lia List String Ascii.
From Stdlib Require Import Strings.Byte ZArith Floats.
Import ListNotations.
Local Open Scope string_scope.
Local Open Scope list_scope.
Local Open Scope nat_scope.

Set Implicit Arguments.

(* ================================================================== *)
(** ** Python strings *)
(* ================================================================== *)

Module Py.

Definition bytes := list byte.

(** Truth value of an [Optional[str]] / [Optional[bytes]] in a condition:
    [None] and the empty sequence are false. *)
Definition truthy_str (o : option string) : bool :=
  match o with
  | Some (String _ _) => true
  | _ => false
  end.

Definition truthy_bytes (o : option bytes) : bool :=
  match o with
  | Some (_ :: _) => true
  | _ => false
  end.

Definition code (c : ascii) : nat := nat_of_ascii c.

Definition between (lo hi : nat) (c : ascii) : bool :=
  (lo <=? code c) && (code c <=? hi).

(** [str.isalnum] on U+0000 .. U+00FF: the ASCII letters and digits, the
    Latin-1 letters, and the numeric characters U+00B2, U+00B3, U+00B9,
    U+00BC .. U+00BE. *)
Definition isalnum (c : ascii) : bool :=
  between 48 57 c || between 65 90 c || between 97 122 c
  || between 170 170 c || between 178 179 c || between 181 181 c
  || between 185 186 c || between 188 190 c
  || between 192 214 c || between 216 246 c || between 248 255 c.

(** [str.isspace] on U+0000 .. U+00FF; also the class [\s]. *)
Definition isspace (c : ascii) : bool :=
  between 9 13 c || between 28 32 c || between 133 133 c
  || between 160 160 c.

(** The class [\w]: alphanumeric or underscore. *)
Definition isword (c : ascii) : bool :=
  isalnum c || Ascii.eqb c "_".

(** [str.lower] on one character: A-Z and U+00C0 .. U+00DE except U+00D7
    move up by 32. *)
Definition lower_char (c : ascii) : ascii :=
  if between 65 90 c || (between 192 222 c && negb (code c =? 215))
  then ascii_of_nat (code c + 32)
  else c.

Fixpoint lower (s : string) : string :=
  match s with
  | EmptyString => EmptyString
  | String c r => String (lower_char c) (lower r)
  end.

Fixpoint lstrip (s : string) : string :=
  match s with
  | EmptyString => EmptyString
  | String c r => if isspace c then lstrip r else s
  end.

Fixpoint rstrip (s : string) : string :=
  match s with
  | EmptyString => EmptyString
  | String c r =>
      match rstrip r with
      | EmptyString => if isspace c then EmptyString else String c EmptyString
      | r' => String c r'
      end
  end.

(** [s.strip()] *)
Definition strip (s : string) : string := rstrip (lstrip s).

Fixpoint filter (keep : ascii -> bool) (s : string) : string :=
  match s with
  | EmptyString => EmptyString
  | String c r => if keep c then String c (filter keep r) else filter keep r
  end.

Fixpoint forallb (p : ascii -> bool) (s : string) : bool :=
  match s with
  | EmptyString => true
  | String c r => p c && forallb p r
  end.

(** [s.replace(" ", "")] *)
Definition remove_spaces (s : string) : string :=
  filter (fun c => negb (Ascii.eqb c " ")) s.

Definition head (s : string) : option ascii :=
  match s with
  | EmptyString => None
  | String c _ => Some c
  end.

Definition newline : string := String (ascii_of_nat 10) EmptyString.

(** The 256 characters, for properties checked character by character. *)
Definition all_chars : list ascii := map ascii_of_nat (seq 0 256).

Definition for_all_chars (p : ascii -> bool) : bool :=
  List.forallb p all_chars.

(** a-z *)
Definition is_az (c : ascii) : bool := between 97 122 c.

Definition no_underscore (s : string) : bool :=
  forallb (fun c => negb (Ascii.eqb c "_")) s.

End Py.

(* ================================================================== *)
(** ** The two regular expressions of the normalizer *)
(* ================================================================== *)

Module Re.
Import Py.

(** [\b] between [prev] and [next] ([None] at either end of the string):
    exactly one side is a word character. *)
Definition word_at (o : option ascii) : bool :=
  match o with
  | Some c => isword c
  | None => false
  end.

Definition word_boundary (prev next : option ascii) : bool :=
  xorb (word_at prev) (word_at next).

(** A literal of the pattern under [re.IGNORECASE]: every pattern character
    matches the characters with the same lower case. On success, the last
    character matched and the rest of the subject. *)
Fixpoint literal_ci (pat : string) (last : option ascii) (s : string)
  : option (option ascii * string) :=
  match pat with
  | EmptyString => Some (last, s)
  | String p pat' =>
      match s with
      | EmptyString => None
      | String c r =>
      if Ascii.eqb (lower_char c) (lower_char p)
      then literal_ci pat' (Some c) r
          else None
      end
  end.

(** The alternatives of the group, in the order the pattern lists them. *)
Definition SUFFIXES : list string :=
  ["inc"; "corp"; "llc"; "ltd"; "incorporated"; "corporation"].

(** One alternative followed by [\b\.?]: the number of characters matched. *)
Definition alternative (alt : string) (prev : option ascii) (s : string)
  : option nat :=
  match literal_ci alt prev s with
  | None => None
  | Some (last, r) =>
      if word_boundary last (head r)
    then match r with
         | String c _ =>
             if Ascii.eqb c "." then Some (S (String.length alt))
             else Some (String.length alt)
         | EmptyString => Some (String.length alt)
         end
      else None
  end.

(** The group: the first alternative that lets the rest of the pattern
    match (the matcher backtracks into the group otherwise). *)
Fixpoint alternatives (alts : list string) (prev : option ascii) (s : string)
  : option nat :=
  match alts with
  | [] => None
  | alt :: alts' =>
      match alternative alt prev s with
      | Some n => Some n
      | None => alternatives alts' prev s
      end
  end.

(** [\b(inc|corp|llc|ltd|incorporated|corporation)\b\.?] tried at one
    position, [prev] being the character before it. *)
Definition suffix_match (prev : option ascii) (s : string) : option nat :=
  if word_boundary prev (head s) then alternatives SUFFIXES prev s else None.

(** [re.sub(pattern, '', s, flags=re.IGNORECASE)]: scan from the left; at a
    position where the pattern matches [S k] characters, drop them and resume
    after them ([skip] counts the characters of a match still to drop);
    elsewhere keep the character. *)
Fixpoint sub_suffix_from (prev : option ascii) (skip : nat) (s : string)
  : string :=
  match s with
  | EmptyString => EmptyString
  | String c r =>
      match skip with
      | S k => sub_suffix_from (Some c) k r
      | O =>
          match suffix_match prev s with
          | Some (S k) => sub_suffix_from (Some c) k r
          | _ => String c (sub_suffix_from (Some c) 0 r)
          end
      end
  end.

Definition sub_suffix (s : string) : string := sub_suffix_from None 0 s.

(** [re.sub(r'[^\w\s]', '', s)] *)
Definition sub_nonword_nonspace (s : string) : string :=
  filter (fun c => isword c || isspace c) s.

End Re.

(* ================================================================== *)
(** ** Exceptions and the state-and-exception monad *)
(* ================================================================== *)

(** Instances of [Exception]: the ones the sources raise themselves, the two
    the interpreter raises in them (a local read before assignment, the
    read of an attribute the object does not have), and whatever a
    provider's client raises. *)
Inductive PyException : Type :=
| UnboundLocalError (name : string)
| AttributeError (attr : string)
| ValueError (msg : string)
| ProviderError (msg : string).

Definition M (St A : Type) : Type := St -> (PyException + A) * St.

Definition ret {St A} (a : A) : M St A := fun st => (inr a, st).

Definition raise {St A} (e : PyException) : M St A := fun st => (inl e, st).

Definition bind {St A B} (c : M St A) (k : A -> M St B) : M St B :=
  fun st =>
    match c st with
    | (inr a, st') => k a st'
    | (inl e, st') => (inl e, st')
    end.

(** [try: c / except Exception as e: ...]: the outcome of [c] as a value. *)
Definition attempt {St A} (c : M St A) : M St (PyException + A) :=
  fun st => let (r, st') := c st in (inr r, st').

Declare Scope py_scope.
Delimit Scope py_scope with py.
Notation "x <- c ;; k" := (bind c (fun x => k))
  (at level 61, c at next level, right associativity) : py_scope.
Local Open Scope py_scope.

(* ================================================================== *)
(** ** app/models/schemas.py *)
(* ================================================================== *)

Module Schemas.

Inductive TierUsed : Type :=
| TIER_1   (* "text_only" *)
| TIER_2.  (* "vision_fallback" *)

Record InvoiceMetadata : Type := {
  company_name : string;
  po_number : string;
  invoice_number : string;
  confidence : float
}.

End Schemas.

(** What [extract_invoice_data] can hand back at run time: an
    [InvoiceMetadata], or [None] where a body ends without [return]. *)
Inductive PyObject : Type :=
| PyNone
| Meta (m : Schemas.InvoiceMetadata).

(** [obj.confidence] *)
Definition getattr_confidence (obj : PyObject) : PyException + float :=
  match obj with
  | Meta m => inr (Schemas.confidence m)
  | PyNone => inl (AttributeError "confidence")
  end.

(* ================================================================== *)
(** ** app/core/config.py *)
(* ================================================================== *)

Module Config.

Record Settings : Type := {
  LLM_PROVIDER : string;
  MODEL_A_NAME : string;  (* Model A: Fast/Cheap (Text) *)
  MODEL_B_NAME : string;  (* Model B: Smart/Expensive (Vision Fallback) *)
  OPENAI_API_KEY : option string  (* API Keys (Loaded from .env) *)
}.

(** The defaults of the class, used when the environment sets nothing. *)
Definition defaults : Settings := {|
  LLM_PROVIDER := "openai";
  MODEL_A_NAME := "gpt-4o-mini";
  MODEL_B_NAME := "gpt-4o";
  OPENAI_API_KEY := None
|}.

(** [settings.ANTHROPIC_API_KEY]. The class declares [OPENAI_API_KEY] and no
    other key, and [extra="ignore"] drops a value the environment gives
    under a name that is not declared: the read raises. *)
Definition ANTHROPIC_API_KEY (settings : Settings)
  : PyException + option string :=
  inl (AttributeError "ANTHROPIC_API_KEY").

End Config.

(* ================================================================== *)
(** ** app/services/ai/interface.py *)
(* ================================================================== *)

Module Interface.
Import Py Schemas Config.

Record Message : Type := { role : string; content : string }.

(** One call of [client.chat.completions.create]; [response_model] is
    always [InvoiceMetadata]. *)
Record Request : Type := { model : string; messages : list Message }.

(** The provider behind the patched client: the requests it has received,
    and how it answers the next one given those. With [response_model] set
    the client returns a validated [InvoiceMetadata] or raises. *)
Record Provider : Type := {
  requests : list Request;
  reply : list Request -> Request -> PyException + InvoiceMetadata
}.

Definition create (model : string) (messages : list Message)
  : M Provider PyObject :=
  fun p =>
    let rq := {| model := model; messages := messages |} in
    (match reply p (requests p) rq with
     | inl e => inl e
     | inr m => inr (Meta m)
     end,
     {| requests := requests p ++ [rq]; reply := reply p |}).

(** The abstract base class: one method. *)
Class LLMBackend (B : Type) : Type :=
  extract_invoice_data :
    B -> option string -> option bytes -> M Provider PyObject.

(** A backend holds the settings it was built under. *)
Record OpenAIBackend : Type := { openai_settings : Settings }.

(** An instance of [AnthropicBackend] is what [__init__] has built: it holds
    the client, made with the key that [settings.ANTHROPIC_API_KEY] gave. *)
Record AnthropicBackend : Type := {
  anthropic_settings : Settings;
  anthropic_api_key : option string;
  anthropic_built :
    ANTHROPIC_API_KEY anthropic_settings = inr anthropic_api_key
}.

(** [f"{text}"] *)
Definition format_str (o : option string) : string :=
  match o with
  | Some t => t
  | None => "None"
  end.

(** The [if]/[elif] of [OpenAIBackend.extract_invoice_data]: the messages,
    and [model] when one of the two branches bound it. *)
Definition openai_prepare (self : OpenAIBackend)
    (text : option string) (image_bytes : option bytes)
  : list Message * option string :=
  if truthy_str text && negb (truthy_bytes image_bytes) then
    (* Handle Text-Only (Tier 1) *)
    ([ {| role := "system";
          content := "You are an expert invoice parser." |};
       {| role := "user";
          content := ("Extract invoice details from this text:"
                      ++ newline ++ newline ++ format_str text)%string |} ],
     Some (MODEL_A_NAME (openai_settings self)))
  else if truthy_bytes image_bytes then
    (* Handle Vision (Tier 2 Fallback) *)
    ([ {| role := "user";
          content := "Extract invoice details from this image." |} ],
     Some (MODEL_B_NAME (openai_settings self)))
  else ([], None).

#[export] Instance OpenAI_extract : LLMBackend OpenAIBackend :=
  fun self text image_bytes =>
    match openai_prepare self text image_bytes with
    | (messages, Some model) => create model messages
    | (_, None) => raise (UnboundLocalError "model")
    end.

(** The body is [pass]: the call returns [None]. *)
#[export] Instance Anthropic_extract : LLMBackend AnthropicBackend :=
  fun self text image_bytes => ret PyNone.

(** [os.environ.get] *)
Definition Environ : Type := string -> option string.

Definition no_api_key : PyException :=
  ProviderError
    ("The api_key client option must be set either by passing api_key to "
     ++ "the client or by setting the OPENAI_API_KEY environment variable").

(** [AsyncOpenAI(api_key=...)]: given [None] the client reads
    [OPENAI_API_KEY] from the process environment, and raises when that is
    not set either. The key the client holds. *)
Definition AsyncOpenAI (environ : Environ) (api_key : option string)
  : PyException + string :=
  match api_key with
  | Some k => inr k
  | None =>
      match environ "OPENAI_API_KEY" with
      | Some k => inr k
      | None => inl no_api_key
      end
  end.

(** [OpenAIBackend.__init__] *)
Definition OpenAIBackend_init (environ : Environ) (settings : Settings)
  : PyException + OpenAIBackend :=
  match AsyncOpenAI environ (OPENAI_API_KEY settings) with
  | inl e => inl e
  | inr _ => inr {| openai_settings := settings |}
  end.

(** [AnthropicBackend.__init__]: the argument of [AsyncAnthropic] is
    evaluated first. *)
Definition AnthropicBackend_init (settings : Settings)
  : PyException + AnthropicBackend :=
  match ANTHROPIC_API_KEY settings as read
        return ANTHROPIC_API_KEY settings = read
               -> PyException + AnthropicBackend with
  | inl e => fun _ => inl e
  | inr api_key => fun built =>
      inr {| anthropic_settings := settings;
             anthropic_api_key := api_key;
             anthropic_built := built |}
  end eq_refl.

(** What [get_llm_backend] can return. *)
Inductive ConfiguredBackend : Type :=
| UseOpenAI (b : OpenAIBackend)
| UseAnthropic (b : AnthropicBackend).

#[export] Instance Configured_extract : LLMBackend ConfiguredBackend :=
  fun self text image_bytes =>
    match self with
    | UseOpenAI b => extract_invoice_data b text image_bytes
    | UseAnthropic b => extract_invoice_data b text image_bytes
    end.

Definition get_llm_backend (environ : Environ) (settings : Settings)
  : PyException + ConfiguredBackend :=
  if String.eqb (LLM_PROVIDER settings) "openai"
  then match OpenAIBackend_init environ settings with
       | inl e => inl e
       | inr b => inr (UseOpenAI b)
       end
  else if String.eqb (LLM_PROVIDER settings) "anthropic"
  then match AnthropicBackend_init settings with
       | inl e => inl e
       | inr b => inr (UseAnthropic b)
       end
  else inl (ValueError ("Unsupported LLM provider: "
                        ++ LLM_PROVIDER settings)%string).

End Interface.

(* ================================================================== *)
(** ** app/services/ai/cascade.py *)
(* ================================================================== *)

Module Cascade.
Import Py Schemas Interface.

(** The arguments of one [self.backend.extract_invoice_data(...)] call. *)
Record Invocation : Type := {
  text : option string;
  image_bytes : option bytes
}.

(** What [process] runs against: the provider, and the record of the
    backend calls made so far (kept for the call-count statements). *)
Record Runtime : Type := {
  invocations : list Invocation;
  provider : Provider
}.

Record CascadeService (B : Type) : Type := {
  backend : B;
  confidence_threshold : float
}.

(** [0.85], that is, the binary64 value nearest to it. *)
Definition default_threshold : float := 0x1.b333333333333p-1%float.

(** [CascadeService.__init__] *)
Definition init (environ : Environ) (settings : Config.Settings)
    (confidence_threshold : float)
  : PyException + CascadeService ConfiguredBackend :=
  match get_llm_backend environ settings with
  | inl e => inl e
  | inr b => inr {| backend := b;
                    confidence_threshold := confidence_threshold |}
  end.

(** The error of [process] when no tier gave a result and there is no image
    to fall back on. *)
Definition no_image_error : PyException :=
  ValueError "Extraction failed and no image available for fallback.".

Section Process.
Context {B : Type} `{LLMBackend B}.

(** [await self.backend.extract_invoice_data(text=..., image_bytes=...)] *)
Definition call_backend (b : B) (text : option string)
    (image_bytes : option bytes) : M Runtime PyObject :=
  fun rt =>
    let (r, p) := extract_invoice_data b text image_bytes (provider rt) in
    (r, {| invocations :=
             invocations rt
             ++ [ {| text := text; image_bytes := image_bytes |} ];
           provider := p |}).

(** How the first [try] statement is left: by its [return], or by falling
    through to the Tier 2 part with the local [result] bound or not
    (['result' in locals()]). *)
Inductive Tier1Exit : Type :=
| Return (out : PyObject * TierUsed)
| FallThrough (result : option PyObject).

(** Tier 1: the first [try] statement of [process]. *)
Definition tier1 (self : CascadeService B) (text : string)
  : M Runtime Tier1Exit :=
  r <- attempt (call_backend (backend self) (Some text) None) ;;
  match r with
  | inl e =>
      (* raised by the call: [result] was never assigned *)
      ret (FallThrough None)
  | inr result =>
      match getattr_confidence result with
      | inl e =>
          (* raised by [result.confidence], after the assignment *)
          ret (FallThrough (Some result))
      | inr c =>
          if (confidence_threshold self <=? c)%float
          then ret (Return (result, TIER_1))
          else ret (FallThrough (Some result))
      end
  end.

(** Tier 2: the rest of [process], from [if not image_bytes] on. *)
Definition tier2 (self : CascadeService B) (image_bytes : option bytes)
    (result : option PyObject) : M Runtime (PyObject * TierUsed) :=
  if negb (truthy_bytes image_bytes) then
    match result with
    | Some result => ret (result, TIER_1)
    | None => raise no_image_error
    end
  else
    r <- attempt (call_backend (backend self) None image_bytes) ;;
    match r with
    | inr vision_result => ret (vision_result, TIER_2)
    | inl e =>
        match result with
        | Some result => ret (result, TIER_1)
        | None => raise e
        end
    end.

(** [CascadeService.process] *)
Definition process (self : CascadeService B) (text : string)
    (image_bytes : option bytes) : M Runtime (PyObject * TierUsed) :=
  x <- tier1 self text ;;
  match x with
  | Return out => ret out
  | FallThrough result => tier2 self image_bytes result
  end.

End Process.

(** The calls in a record that carried a usable image. *)
Definition vision_calls (l : list Invocation) : list Invocation :=
  List.filter (fun i => truthy_bytes (image_bytes i)) l.

End Cascade.

(* ================================================================== *)
(** ** app/services/pdf/processor.py *)
(* ================================================================== *)

Module Processor.
Import Py.

(** What [fitz.open] gives for a path: an exception, or the pages, each
    with what [page.get_text()] does on it. *)
Definition Document : Type := PyException + list (PyException + string).

(** The loop [for page in doc: text += page.get_text() + "\n"]. *)
Fixpoint read_pages (text : string) (pages : list (PyException + string))
  : PyException + string :=
  match pages with
  | [] => inr text
  | inl e :: _ => inl e
  | inr t :: rest => read_pages (text ++ t ++ newline)%string rest
  end.

(** [PDFService.extract_text] *)
Definition extract_text (doc : Document) : string :=
  match doc with
  | inl e => ""
  | inr pages =>
      match read_pages "" pages with
      | inr text => strip text
      | inl e => ""
      end
  end.

End Processor.

(* ================================================================== *)
(** ** app/services/normalizer.py *)
(* ================================================================== *)

Module Normalizer.
Import Py Re.

(** A [Dict[str, str]]: the items in insertion order, keys distinct. *)
Definition Dict : Type := list (string * string).

Definition keys (d : Dict) : list string := map fst d.

(** [d[k] = v]: an existing key keeps its place. *)
Fixpoint dict_set (d : Dict) (k v : string) : Dict :=
  match d with
  | [] => [(k, v)]
  | (k', v') :: r =>
      if String.eqb k' k then (k', v) :: r else (k', v') :: dict_set r k v
  end.

(** The file at [dict_path]: missing, one that [open] or [json.load]
    raises on, or a JSON object of strings with its members in file
    order. *)
Inductive FileContent : Type :=
| Absent
| Unreadable
| JsonObject (members : list (string * string)).

(** The persisted store: the file, and whether it can be opened for
    writing. *)
Record Store : Type := {
  content : FileContent;
  writable : bool
}.

(** [json.load] of an object: the members are assigned in file order. *)
Definition json_load (members : list (string * string)) : Dict :=
  fold_left (fun d kv => dict_set d (fst kv) (snd kv)) members [].

Record CompanyNormalizer : Type := { mappings : Dict }.

(** [_save_dictionary]: a failure to write is logged and swallowed. *)
Definition _save_dictionary (data : Dict) (st : Store) : Store :=
  if writable st
  then {| content := JsonObject data; writable := writable st |}
  else st.

(** [_load_dictionary] *)
Definition _load_dictionary (st : Store) : Dict * Store :=
  match content st with
  | Absent => ([], _save_dictionary [] st)
  | Unreadable => ([], st)
  | JsonObject members => (json_load members, st)
  end.

(** [CompanyNormalizer.__init__] *)
Definition init (st : Store) : CompanyNormalizer * Store :=
  let (m, st') := _load_dictionary st in ({| mappings := m |}, st').

(** Step 1 of [normalize]: the three assignments to [clean_name]. *)
Definition clean_name (raw_name : string) : string :=
  strip (sub_nonword_nonspace (sub_suffix (strip raw_name))).

(** The loop over [self.mappings.items()]: the first key whose lower case
    is [search_name]. *)
Fixpoint lookup (search_name : string) (items : Dict) : option string :=
  match items with
  | [] => None
  | (key, standardized) :: rest =>
      if String.eqb (lower key) search_name
      then Some standardized
      else lookup search_name rest
  end.

(** [CompanyNormalizer.normalize] *)
Definition normalize (self : CompanyNormalizer) (raw_name : option string)
  : string :=
  match raw_name with
  | None | Some EmptyString => "Unknown_Company"
  | Some raw =>
      let clean := clean_name raw in
      let search_name := lower clean in
      match lookup search_name (mappings self) with
      | Some standardized => standardized
      | None => remove_spaces clean
      end
  end.

(** [CompanyNormalizer.add_mapping] *)
Definition add_mapping (self : CompanyNormalizer)
    (raw_name standardized_name : string) (st : Store)
  : CompanyNormalizer * Store :=
  let m := dict_set (mappings self) raw_name standardized_name in
  ({| mappings := m |}, _save_dictionary m st).

(** [add_mapping(a, b)] on [self], then a fresh normalizer built from the
    store, then [normalize(a)] on the fresh one. *)
Definition add_then_reload (self : CompanyNormalizer) (st : Store)
    (a b : string) : string :=
  let (_, st') := add_mapping self a b st in
  let (fresh, _) := init st' in
  normalize fresh (Some a).

End Normalizer.

(* ================================================================== *)
(** ** The normalizer as the specification words it *)
(* ================================================================== *)

Module Spec.
Import Py Re.

(** A legal-entity suffix, whatever its case. *)
Definition is_suffix_word (w : string) : bool :=
  existsb (String.eqb (lower w)) SUFFIXES.

(** Suffixes stripped as whole words, for words made of the characters
    [isw]: the words are the maximal runs of such characters; a word that is
    a suffix goes, with one full stop right after it. [word] is the run read
    so far. *)
Fixpoint strip_words (isw : ascii -> bool) (word : string) (s : string)
  : string :=
  match s with
  | EmptyString => if is_suffix_word word then EmptyString else word
  | String c r =>
      if isw c then strip_words isw (word ++ String c EmptyString)%string r
      else if is_suffix_word word then
        if Ascii.eqb c "." then strip_words isw EmptyString r
        else String c (strip_words isw EmptyString r)
      else (word ++ String c (strip_words isw EmptyString r))%string
  end.

(** Words of alphanumeric characters. *)
Definition strip_suffix_words (s : string) : string :=
  strip_words isalnum EmptyString s.

Definition keep_alnum_and_space (s : string) : string :=
  filter (fun c => isalnum c || isspace c) s.


(** The cleaned name, which the dictionary is searched for: the ends
    trimmed, suffixes stripped as whole words, every character that is
    neither alphanumeric nor whitespace removed, the ends trimmed again. *)
Definition cleaned (s : string) : string :=
  strip (keep_alnum_and_space (strip_suffix_words (strip s))).

(** The fallback as amended: of the whitespace inside the cleaned name only
    the space characters are removed. *)
Definition fallback_amended (s : string) : string :=
  remove_spaces (cleaned s).

End Spec.

(* ================================================================== *)
(** ** Concrete providers, services and stores used in the examples *)
(* ================================================================== *)

Module Examples.
Import Py Schemas Config Interface Cascade.

Definition meta (c : float) : InvoiceMetadata := {|
  company_name := "The Home Depot, Inc.";
  po_number := "PO-7";
  invoice_number := "INV-42";
  confidence := c
|}.

(** A provider that answers the text model with [a] and the vision model
    with [b], and has received nothing yet. *)
Definition provider_answering (a b : PyException + InvoiceMetadata)
  : Provider := {|
  requests := [];
  reply := fun _ rq =>
    if String.eqb (model rq) (MODEL_A_NAME defaults) then a else b
|}.

Definition runtime_answering (a b : PyException + InvoiceMetadata)
  : Runtime := {|
  invocations := [];
  provider := provider_answering a b
|}.

(** The defaults with a key, as a [.env] that sets [OPENAI_API_KEY] and
    nothing else gives them. *)
Definition settings : Settings := {|
  LLM_PROVIDER := LLM_PROVIDER defaults;
  MODEL_A_NAME := MODEL_A_NAME defaults;
  MODEL_B_NAME := MODEL_B_NAME defaults;
  OPENAI_API_KEY := Some "sk-example"
|}.


(** A process environment that sets nothing. *)
Definition bare : Environ := fun _ => None.

Definition openai : OpenAIBackend := {| openai_settings := settings |}.

Definition service : CascadeService OpenAIBackend := {|
  backend := openai;
  confidence_threshold := default_threshold
|}.

Definition png : option bytes := Some [x89; x50; x4e; x47].

Definition timeout : PyException := ProviderError "request timed out".
Definition refused : PyException := ProviderError "vision refused".


Definition no_mappings : Normalizer.CompanyNormalizer :=
  {| Normalizer.mappings := [] |}.

Definition home_depot : Normalizer.CompanyNormalizer :=
  {| Normalizer.mappings := [("Home Depot", "HomeDepot")] |}.

Definition store : Normalizer.Store :=
  {| Normalizer.content := Normalizer.JsonObject [("Home Depot", "HomeDepot")];
     Normalizer.writable := true |}.

Definition store_empty : Normalizer.Store :=
  {| Normalizer.content := Normalizer.JsonObject [];
     Normalizer.writable := true |}.

End Examples.

Unset Implicit Arguments.

(* ================================================================== *)
(** ** app/services/pdf/processor.py: rendering and splitting *)
(* ================================================================== *)

Module Splitter.
Import Py.

(** [directory / name], as [pathlib] joins them. *)
Record Path : Type := { directory : string; name : string }.

(** What the code uses of PyMuPDF, for documents [Doc] on a file system
    [Disk]: the library is taken as given. *)
Class Fitz (Doc Disk : Type) : Type := {
  (** [fitz.open(str(path))] *)
  fitz_open : string -> Disk -> PyException + Doc;
  (** [fitz.open()]: a new, empty document *)
  fitz_new : Doc;
  (** [for page in doc: ... page.get_text()]: the pages of a document, each
      with its text or the exception reading it raises *)
  get_texts : Doc -> list (PyException + string);
  (** [doc.load_page(i).get_pixmap(matrix=fitz.Matrix(2, 2)).tobytes("png")] *)
  render_png : Doc -> Z -> PyException + bytes;
  (** [new_doc.insert_pdf(src, from_page=p, to_page=p)] *)
  insert_pdf : Doc -> Doc -> Z -> PyException + Doc;
  (** [new_doc.save(str(out_path))]: the file system afterwards, and the
      exception if it raised *)
  save : Doc -> Path -> Disk -> option PyException * Disk
}.

(** [s.endswith(suffix)] *)
Fixpoint endswith (s suffix : string) : bool :=
  String.eqb s suffix
  || match s with
     | EmptyString => false
     | String _ r => endswith r suffix
     end.

(** [if not name.lower().endswith(".pdf"): name += ".pdf"] *)
Definition ensure_pdf (name : string) : string :=
  if negb (endswith (lower name) ".pdf") then (name ++ ".pdf")%string
  else name.

Section WithFitz.
Context {Doc Disk : Type} {F : Fitz Doc Disk}.

(** The document [PDFService.extract_text] reads at [file_path]. *)
Definition read_document (file_path : string) (disk : Disk)
  : Processor.Document :=
  match fitz_open file_path disk with
  | inl e => inl e
  | inr doc => inr (get_texts doc)
  end.

(** [PDFService.render_page_to_image]: the exception is logged and raised
    again. *)
Definition render_page_to_image (file_path : string) (page_index : Z)
    (disk : Disk) : PyException + bytes :=
  match fitz_open file_path disk with
  | inl e => inl e
  | inr doc => render_png doc page_index
  end.

(** [for p in pages: new_doc.insert_pdf(src, from_page=p, to_page=p)] *)
Fixpoint insert_pages (new_doc src : Doc) (pages : list Z)
  : PyException + Doc :=
  match pages with
  | [] => inr new_doc
  | p :: rest =>
      match insert_pdf new_doc src p with
      | inl e => inl e
      | inr new_doc' => insert_pages new_doc' src rest
      end
  end.

(** The loop over [zip(page_ranges, output_names)]. *)
Fixpoint split_loop (PROCESSED_DIR : string) (src : Doc)
    (jobs : list (list Z * string)) (output_paths : list Path)
  : M Disk (list Path) :=
  match jobs with
  | [] => ret output_paths
  | (pages, name) :: rest =>
      fun disk =>
        match insert_pages fitz_new src pages with
        | inl e => (inl e, disk)
        | inr new_doc =>
            let out_path :=
              {| directory := PROCESSED_DIR; name := ensure_pdf name |} in
            match save new_doc out_path disk with
            | (Some e, disk') => (inl e, disk')
            | (None, disk') =>
                split_loop PROCESSED_DIR src rest
                  (output_paths ++ [out_path]) disk'
            end
        end
  end.

(** [PDFService.split_pdf]: an exception is logged and raised again. *)
Definition split_pdf (PROCESSED_DIR : string) (source_path : string)
    (page_ranges : list (list Z)) (output_names : list string)
  : M Disk (list Path) :=
  fun disk =>
    match fitz_open source_path disk with
    | inl e => (inl e, disk)
    | inr src =>
        split_loop PROCESSED_DIR src (combine page_ranges output_names) []
          disk
    end.

End WithFitz.

End Splitter.

(* ================================================================== *)
(** ** Closed forms used in the statements *)
(* ================================================================== *)

Module ClosedForms.
Import Py.

(** The texts of the pages, or the exception of the first page that cannot
    be read. *)
Fixpoint page_texts (pages : list (PyException + string))
  : PyException + list string :=
  match pages with
  | [] => inr []
  | inl e :: _ => inl e
  | inr t :: rest =>
      match page_texts rest with
      | inl e => inl e
      | inr texts => inr (t :: texts)
      end
  end.

(** Every text followed by a newline. *)
Fixpoint join_pages (texts : list string) : string :=
  match texts with
  | [] => EmptyString
  | t :: rest => (t ++ newline ++ join_pages rest)%string
  end.

End ClosedForms.

(* ================================================================== *)
(** ** app/main.py: the background task; app/models/schemas.py: the tables *)
(* ================================================================== *)

Module Main.
Import Py Schemas Interface Cascade Splitter.

Inductive JobStatus : Type :=
| PENDING
| PROCESSING
| COMPLETED
| FAILED.

(** A row of [Job]; times are seconds since the epoch. *)
Record Job : Type := {
  id : Z;
  filename : string;
  status : JobStatus;
  created_at : Z;
  updated_at : Z;
  error_message : option string
}.

(** A row of [Invoice], without the [id] the database gives it. *)
Record Invoice : Type := {
  job_id : Z;
  company_name : string;
  po_number : string;
  invoice_number : string;
  tier_used : TierUsed;
  raw_text : option string;
  confidence_score : float;
  original_split_path : Path
}.

(** The database as the session sees it once committed. *)
Record Database : Type := {
  jobs : list Job;
  invoices : list Invoice
}.

(** [db.get(Job, job_id)] *)
Definition get_job (db : Database) (job_id : Z) : option Job :=
  find (fun j => Z.eqb (id j) job_id) (jobs db).

(** [db.add(job); db.commit()] for a job already stored: its row is
    written. *)
Definition commit_job (job : Job) (db : Database) : Database :=
  {| jobs := map (fun j => if Z.eqb (id j) (id job) then job else j) (jobs db);
     invoices := invoices db |}.

(** [db.add(new_invoice)], committed with the job. *)
Definition add_invoice (invoice : Invoice) (db : Database) : Database :=
  {| jobs := jobs db; invoices := invoices db ++ [invoice] |}.

Definition set_status (job : Job) (s : JobStatus) : Job :=
  {| id := id job; filename := filename job; status := s;
     created_at := created_at job; updated_at := updated_at job;
     error_message := error_message job |}.

Definition set_error_message (job : Job) (msg : string) : Job :=
  {| id := id job; filename := filename job; status := status job;
     created_at := created_at job; updated_at := updated_at job;
     error_message := Some msg |}.

(** What the [try] of the task can raise: the exceptions of the services,
    and the [IndexError] of [output_paths[0]]. *)
Inductive TaskException : Type :=
| Raised (e : PyException)
| IndexError.

(** What the task runs against. *)
Record World (Disk : Type) : Type := {
  db : Database;
  disk : Disk;
  runtime : Runtime
}.
Arguments db {Disk} _.
Arguments disk {Disk} _.
Arguments runtime {Disk} _.

(** [f"{standardized_company} PO{po_number} INV{invoice_number}.pdf"] *)
Definition new_filename (standardized_company po_number invoice_number
                           : string) : string :=
  (standardized_company ++ " PO" ++ po_number ++ " INV" ++ invoice_number
   ++ ".pdf")%string.

Section Task.
Context {B Doc Disk : Type} {E : LLMBackend B} {F : Fitz Doc Disk}.
Variable PROCESSED_DIR : string.
Variable ai_service : CascadeService B.
Variable normalizer : Normalizer.CompanyNormalizer.
(** [str(e)] *)
Variable str : TaskException -> string.

(** Steps 1 to 7 of the [try], after the first commit: the invoice to
    store, or the exception raised on the way. *)
Definition extract_and_split (job : Job) (file_path : string)
    (disk0 : Disk) (rt0 : Runtime)
  : (TaskException + Invoice) * Disk * Runtime :=
  (* 1. Extract Text (Tier 1) *)
  let text := Processor.extract_text (read_document file_path disk0) in
  (* 2. Render Page (For Tier 2 Fallback) *)
  match render_page_to_image file_path 0 disk0 with
  | inl e => (inl (Raised e), disk0, rt0)
  | inr image_bytes =>
      (* 3. AI Extraction via Cascade *)
      match process ai_service text (Some image_bytes) rt0 with
      | (inl e, rt1) => (inl (Raised e), disk0, rt1)
      | (inr (PyNone, tier), rt1) =>
          (* [metadata.company_name] on [None] *)
          (inl (Raised (AttributeError "company_name")), disk0, rt1)
      | (inr (Meta metadata, tier), rt1) =>
          (* 4. Local Normalization *)
          let standardized_company :=
            Normalizer.normalize normalizer
              (Some (Schemas.company_name metadata)) in
          (* 5. Create New Filename *)
          let new_filename :=
            new_filename standardized_company (Schemas.po_number metadata)
              (Schemas.invoice_number metadata) in
          (* 6. Physical Split *)
          match split_pdf PROCESSED_DIR file_path [[0%Z]] [new_filename]
                  disk0 with
          | (inl e, disk1) => (inl (Raised e), disk1, rt1)
          | (inr [], disk1) => (inl IndexError, disk1, rt1)
          | (inr (path :: _), disk1) =>
              (* 7. Save to Database *)
              (inr {| job_id := id job;
                      company_name := standardized_company;
                      po_number := Schemas.po_number metadata;
                      invoice_number := Schemas.invoice_number metadata;
                      tier_used := tier;
                      raw_text := Some text;
                      confidence_score := Schemas.confidence metadata;
                      original_split_path := path |},
               disk1, rt1)
          end
      end
  end.

(** [process_pdf_task] *)
Definition process_pdf_task (job_id : Z) (file_path : string)
    (w : World Disk) : World Disk :=
  match get_job (db w) job_id with
  | None => w
  | Some job =>
      let job := set_status job PROCESSING in
      let db1 := commit_job job (db w) in
      match extract_and_split job file_path (disk w) (runtime w) with
      | (inr new_invoice, disk1, rt1) =>
          let job := set_status job COMPLETED in
          {| db := commit_job job (add_invoice new_invoice db1);
             disk := disk1; runtime := rt1 |}
      | (inl e, disk1, rt1) =>
          let job := set_error_message (set_status job FAILED) (str e) in
          {| db := commit_job job db1; disk := disk1; runtime := rt1 |}
      end
  end.

End Task.

End Main.

(* ================================================================== *)
(** ** A small document library and a job, for the examples *)
(* ================================================================== *)

Module Samples.
Import Py Schemas Interface Cascade Splitter Main.

(** A document is the list of the texts of its pages; the file system is
    the list of its files, the newest first. A stored document has a page:
    only [fitz.open()] gives one without. *)
Definition SampleDoc : Type := list string.
Definition SampleDisk : Type := list (string * SampleDoc).

Definition path_string (p : Path) : string :=
  (directory p ++ "/" ++ name p)%string.

Fixpoint sample_open (path : string) (disk : SampleDisk)
  : PyException + SampleDoc :=
  match disk with
  | [] => inl (ValueError "no such file")
  | (n, doc) :: rest =>
      if String.eqb n path then inr doc else sample_open path rest
  end.

(** [doc.load_page(i)]: a negative number counts from the end, one past
    the last page is refused. *)
Definition sample_page (doc : SampleDoc) (i : Z) : PyException + string :=
  let count := Z.of_nat (List.length doc) in
  if (count <=? i)%Z then inl (ValueError "page not in document")
  else match nth_error doc (Z.to_nat (i mod count)) with
       | Some t => inr t
       | None => inl (ValueError "page not in document")
       end.

(** The pages [insert_pdf(src, from_page=p, to_page=p)] copies. PyMuPDF
    brings both numbers into the source: [from_page] to the first page when
    negative, [to_page] to the last page when negative, and neither beyond
    the last page. *)
Definition sample_range (src : SampleDoc) (p : Z) : SampleDoc :=
  let last := (Z.of_nat (List.length src) - 1)%Z in
  let from_page := Z.min (Z.max p 0) last in
  let to_page := Z.min (if (p <? 0)%Z then last else p) last in
  firstn (Z.to_nat (to_page - from_page + 1))
    (skipn (Z.to_nat from_page) src).

#[export] Instance sample_fitz : Fitz SampleDoc SampleDisk := {|
  fitz_open := sample_open;
  fitz_new := [];
  get_texts := fun doc => map inr doc;
  render_png := fun doc i =>
    match sample_page doc i with
    | inl e => inl e
    | inr _ => inr [x89; x50; x4e; x47]
    end;
  insert_pdf := fun new_doc src p => inr (new_doc ++ sample_range src p);
  (* PyMuPDF does not save a document without pages *)
  save := fun doc path disk =>
    match doc with
    | [] => (Some (ValueError "cannot save with zero pages"), disk)
    | _ :: _ => (None, (path_string path, doc) :: disk)
    end
|}.

Definition scan : string := "data/uploads/scan.pdf".

Definition sample_disk : SampleDisk :=
  [ (scan, ["INVOICE 42 The Home Depot, Inc."; "page two"]) ].

Definition job7 : Job := {|
  id := 7;
  filename := "scan.pdf";
  status := PENDING;
  created_at := 1700000000;
  updated_at := 1700000000;
  error_message := None
|}.

Definition sample_db : Database := {| jobs := [job7]; invoices := [] |}.

Definition world (disk : SampleDisk) (rt : Runtime) : World SampleDisk :=
  {| db := sample_db; disk := disk; runtime := rt |}.

(** Python 3.11's [str] of the exceptions. *)
Definition sample_str (e : TaskException) : string :=
  match e with
  | Raised (ValueError msg) => msg
  | Raised (ProviderError msg) => msg
  | Raised (AttributeError attr) =>
      ("'NoneType' object has no attribute '" ++ attr ++ "'")%string
  | Raised (UnboundLocalError v) =>
      ("cannot access local variable '" ++ v
       ++ "' where it is not associated with a value")%string
  | IndexError => "list index out of range"
  end.

(** The task on job 7 and the scan, with the OpenAI service. *)
Definition run (disk : SampleDisk) (rt : Runtime) : World SampleDisk :=
  process_pdf_task "data/processed" Examples.service Examples.home_depot
    sample_str 7 scan (world disk rt).

Definition corrupt : Normalizer.Store :=
  {| Normalizer.content := Normalizer.Unreadable;
     Normalizer.writable := true |}.

Definition two_keys : Normalizer.CompanyNormalizer :=
  {| Normalizer.mappings := [("ACME", "Acme"); ("acme", "acme_lower")] |}.

End Samples.

Set Implicit Arguments.

(* ================================================================== *)
(** * Properties of the extraction cascade *)
(* ================================================================== *)

Import Py Schemas Config Interface Cascade.

(** [c < t] leaves the test [c >= t] false (for a NaN both are false). *)
Lemma ltb_not_geb (c t : float) :
  (c <? t)%float = true -> (t <=? c)%float = false.
Proof.
  rewrite ltb_spec, leb_spec. unfold SFltb, SFleb.
  generalize (Prim2SF c) (Prim2SF t). intros a b.
  destruct a as [sa| sa| |sa ma ea], b as [sb|sb| |sb mb eb]; simpl;
    try congruence; try (destruct sa, sb; simpl; congruence).
  fold (Pos.compare ma mb). fold (Pos.compare mb ma).
  rewrite (Z.compare_antisym ea eb), (Pos.compare_antisym ma mb).
  destruct sa, sb; simpl; try congruence;
    destruct (Z.compare ea eb); simpl; try congruence;
    destruct (Pos.compare ma mb); simpl; congruence.
Qed.

Section CascadeProperties.
Context {B : Type} {E : LLMBackend B}.
Variable self : CascadeService B.
Variable text : string.
Variable image_bytes : option bytes.
Variable rt : Runtime.

Let tier1_call : Invocation :=
  {| Cascade.text := Some text; Cascade.image_bytes := None |}.
Let tier2_call : Invocation :=
  {| Cascade.text := None; Cascade.image_bytes := image_bytes |}.

(** [tier1] step by step, from the outcome of its backend call. *)
Lemma tier1_run (r1 : PyException + PyObject) (p1 : Provider) :
  extract_invoice_data (backend self) (Some text) None (provider rt)
    = (r1, p1) ->
  tier1 self text rt =
    (inr match r1 with
         | inl _ => FallThrough None
         | inr result =>
             match getattr_confidence result with
             | inl _ => FallThrough (Some result)
             | inr c =>
                 if (confidence_threshold self <=? c)%float
                 then Return (result, TIER_1)
                 else FallThrough (Some result)
             end
         end,
     {| invocations := invocations rt ++ [tier1_call]; provider := p1 |}).
Proof.
  intros H. unfold tier1, bind, attempt, call_backend. rewrite H.
  destruct r1 as [e|result]; [reflexivity|].
  destruct (getattr_confidence result) as [e|c]; [reflexivity|].
  destruct (confidence_threshold self <=? c)%float; reflexivity.
Qed.

(** [tier2] with a usable image, from the outcome of its backend call. *)
Lemma tier2_run (result : option PyObject) (log : list Invocation)
    (p1 : Provider) (r2 : PyException + PyObject) (p2 : Provider) :
  truthy_bytes image_bytes = true ->
  extract_invoice_data (backend self) None image_bytes p1 = (r2, p2) ->
  tier2 self image_bytes result {| invocations := log; provider := p1 |} =
    (match r2, result with
     | inr vision_result, _ => inr (vision_result, TIER_2)
     | inl _, Some r => inr (r, TIER_1)
     | inl e, None => inl e
     end,
     {| invocations := log ++ [tier2_call]; provider := p2 |}).
Proof.
  intros Himg H. unfold tier2. rewrite Himg. simpl.
  unfold bind, attempt, call_backend. simpl. rewrite H.
  destruct r2 as [e|v]; [|reflexivity].
  destruct result; reflexivity.
Qed.

(** [tier2] without a usable image: no backend call. *)
Lemma tier2_no_image (result : option PyObject) (rt1 : Runtime) :
  truthy_bytes image_bytes = false ->
  tier2 self image_bytes result rt1 =
    (match result with
     | Some r => inr (r, TIER_1)
     | None =>
         inl no_image_error
     end, rt1).
Proof.
  intros Himg. unfold tier2. rewrite Himg. simpl.
  destruct result; reflexivity.
Qed.

Lemma process_unfold :
  process self text image_bytes rt =
    match tier1 self text rt with
    | (inr (Return out), rt1) => (inr out, rt1)
    | (inr (FallThrough result), rt1) => tier2 self image_bytes result rt1
    | (inl e, rt1) => (inl e, rt1)
    end.
Proof.
  unfold process, bind. destruct (tier1 self text rt) as [[e|[out|result]] rt1];
    reflexivity.
Qed.

(** C1. When the Tier 1 call returns a result whose confidence is at least
    the threshold (equality included), [process] returns that result with
    [TIER_1]; the backend has been called once, with the text and no image,
    so the record of calls carrying an image is as it was. *)
Theorem process_tier1_confident (m : InvoiceMetadata) (p1 : Provider) :
  extract_invoice_data (backend self) (Some text) None (provider rt)
    = (inr (Meta m), p1) ->
  (confidence_threshold self <=? confidence m)%float = true ->
  exists rt',
    process self text image_bytes rt = (inr (Meta m, TIER_1), rt')
    /\ provider rt' = p1
    /\ invocations rt' = invocations rt ++ [tier1_call]
    /\ List.length (invocations rt') = S (List.length (invocations rt))
    /\ vision_calls (invocations rt') = vision_calls (invocations rt).
Proof.
  intros Hcall Hconf. eexists. split.
  - rewrite process_unfold, (tier1_run Hcall). simpl. rewrite Hconf.
    reflexivity.
  - simpl. repeat split.
    + rewrite length_app. simpl. lia.
    + unfold vision_calls. rewrite filter_app. simpl. apply app_nil_r.
Qed.

(** C2. With a usable image, when Tier 1 raised or returned a result below
    the threshold and the Tier 2 call returns, [process] returns what
    Tier 2 returned with [TIER_2], whatever its confidence. *)
Theorem process_tier2_unconditional
    (r1 : PyException + PyObject) (p1 : Provider)
    (vision_result : PyObject) (p2 : Provider) :
  truthy_bytes image_bytes = true ->
  extract_invoice_data (backend self) (Some text) None (provider rt)
    = (r1, p1) ->
  ((exists e, r1 = inl e)
   \/ (exists m, r1 = inr (Meta m)
                 /\ (confidence_threshold self <=? confidence m)%float
                    = false)
   \/ r1 = inr PyNone) ->
  extract_invoice_data (backend self) None image_bytes p1
    = (inr vision_result, p2) ->
  process self text image_bytes rt =
    (inr (vision_result, TIER_2),
     {| invocations := invocations rt ++ [tier1_call] ++ [tier2_call];
        provider := p2 |}).
Proof.
  intros Himg H1 Hlow H2.
  rewrite process_unfold, (tier1_run H1).
  assert (Hrun : forall result,
             tier2 self image_bytes result
               {| invocations := invocations rt ++ [tier1_call];
                  provider := p1 |}
             = (inr (vision_result, TIER_2),
                {| invocations :=
                     invocations rt ++ [tier1_call] ++ [tier2_call];
                   provider := p2 |})).
  { intros result. rewrite (tier2_run result _ Himg H2). simpl.
    rewrite <- app_assoc. reflexivity. }
  destruct Hlow as [[e ->]|[[m [-> Hc]]| ->]]; simpl.
  - apply Hrun.
  - rewrite Hc. apply Hrun.
  - apply Hrun.
Qed.

(** C3. Without a usable image: a Tier 1 result below the threshold is
    returned with [TIER_1]; when the Tier 1 call raised, [process] raises
    and returns nothing. Either way the backend was called once. *)
Theorem process_no_image (r1 : PyException + PyObject) (p1 : Provider) :
  truthy_bytes image_bytes = false ->
  extract_invoice_data (backend self) (Some text) None (provider rt)
    = (r1, p1) ->
  let rt1 := {| invocations := invocations rt ++ [tier1_call];
                provider := p1 |} in
  (forall m, r1 = inr (Meta m) ->
             (confidence m <? confidence_threshold self)%float = true ->
             process self text image_bytes rt = (inr (Meta m, TIER_1), rt1))
  /\ (forall e, r1 = inl e ->
                process self text image_bytes rt =
                  (inl no_image_error,
                   rt1)).
Proof.
  intros Himg H1 rt1. split.
  - intros m -> Hlt. rewrite process_unfold, (tier1_run H1). simpl.
    rewrite (ltb_not_geb Hlt). apply tier2_no_image, Himg.
  - intros e ->. rewrite process_unfold, (tier1_run H1). simpl.
    apply tier2_no_image, Himg.
Qed.

(** C4. With a usable image, when the Tier 2 call raises [e2]: a Tier 1
    result below the threshold is returned with [TIER_1]; when the Tier 1
    call had raised too, [process] raises [e2] and returns nothing. The two
    backend calls are all that happened. *)
Theorem process_tier2_raises (r1 : PyException + PyObject) (p1 : Provider)
    (e2 : PyException) (p2 : Provider) :
  truthy_bytes image_bytes = true ->
  extract_invoice_data (backend self) (Some text) None (provider rt)
    = (r1, p1) ->
  extract_invoice_data (backend self) None image_bytes p1 = (inl e2, p2) ->
  let rt2 := {| invocations := invocations rt ++ [tier1_call] ++ [tier2_call];
                provider := p2 |} in
  (forall m, r1 = inr (Meta m) ->
             (confidence m <? confidence_threshold self)%float = true ->
             process self text image_bytes rt = (inr (Meta m, TIER_1), rt2))
  /\ (forall e1, r1 = inl e1 ->
                 process self text image_bytes rt = (inl e2, rt2)).
Proof.
  intros Himg H1 H2 rt2. split.
  - intros m -> Hlt. rewrite process_unfold, (tier1_run H1). simpl.
    rewrite (ltb_not_geb Hlt).
    rewrite (tier2_run _ _ Himg H2). simpl. unfold rt2.
    rewrite <- app_assoc. reflexivity.
  - intros e1 ->. rewrite process_unfold, (tier1_run H1). simpl.
    rewrite (tier2_run _ _ Himg H2). simpl. unfold rt2.
    rewrite <- app_assoc. reflexivity.
Qed.

End CascadeProperties.

(** The boundary case: confidence and threshold both [0.85]. *)
Lemma process_tier1_confident_witness :
  exists rt',
    process Examples.service "INVOICE 42" Examples.png
      (Examples.runtime_answering
         (inr (Examples.meta default_threshold)) (inl Examples.refused))
    = (inr (Meta (Examples.meta default_threshold), TIER_1), rt')
    /\ provider rt'
       = {| requests :=
              [ {| model := "gpt-4o-mini";
                   messages := fst (openai_prepare Examples.openai
                                      (Some "INVOICE 42") None) |} ];
            reply := reply (Examples.provider_answering
                              (inr (Examples.meta default_threshold))
                              (inl Examples.refused)) |}
    /\ invocations rt'
       = [] ++ [ {| text := Some "INVOICE 42"; image_bytes := None |} ]
    /\ List.length (invocations rt') = 1
    /\ vision_calls (invocations rt') = [].
Proof.
  apply (process_tier1_confident Examples.service "INVOICE 42" Examples.png
           (Examples.runtime_answering
              (inr (Examples.meta default_threshold)) (inl Examples.refused)));
    reflexivity.
Defined.

(** Tier 1 at confidence 0.5, Tier 2 answering with confidence 0. *)
Lemma process_tier2_unconditional_witness :
  process Examples.service "INVOICE 42" Examples.png
    (Examples.runtime_answering
       (inr (Examples.meta 0.5)) (inr (Examples.meta 0)))
  = (inr (Meta (Examples.meta 0), TIER_2),
     {| invocations :=
          [] ++ [ {| text := Some "INVOICE 42"; image_bytes := None |} ]
             ++ [ {| text := None; image_bytes := Examples.png |} ];
        provider :=
          {| requests :=
               [ {| model := "gpt-4o-mini";
                    messages := fst (openai_prepare Examples.openai
                                       (Some "INVOICE 42") None) |};
                 {| model := "gpt-4o";
                    messages := fst (openai_prepare Examples.openai
                                       None Examples.png) |} ];
             reply := reply (Examples.provider_answering
                               (inr (Examples.meta 0.5))
                               (inr (Examples.meta 0))) |} |}).
Proof.
  eapply (process_tier2_unconditional Examples.service "INVOICE 42"
           Examples.png
           (Examples.runtime_answering
              (inr (Examples.meta 0.5)) (inr (Examples.meta 0)))
           (r1 := inr (Meta (Examples.meta 0.5)))).
  - reflexivity.
  - reflexivity.
  - right. left. exists (Examples.meta 0.5). split; reflexivity.
  - reflexivity.
Defined.

(** No image: Tier 1 at confidence 0.5, and Tier 1 timing out. *)
Lemma process_no_image_witness :
  process Examples.service "INVOICE 42" None
    (Examples.runtime_answering
       (inr (Examples.meta 0.5)) (inl Examples.refused))
  = (inr (Meta (Examples.meta 0.5), TIER_1),
     {| invocations :=
          [] ++ [ {| text := Some "INVOICE 42"; image_bytes := None |} ];
        provider :=
          snd (extract_invoice_data Examples.openai (Some "INVOICE 42") None
                 (Examples.provider_answering
                    (inr (Examples.meta 0.5)) (inl Examples.refused))) |})
  /\ process Examples.service "INVOICE 42" (Some [])
       (Examples.runtime_answering
          (inl Examples.timeout) (inl Examples.refused))
     = (inl no_image_error,
        {| invocations :=
             [] ++ [ {| text := Some "INVOICE 42"; image_bytes := None |} ];
           provider :=
             snd (extract_invoice_data Examples.openai (Some "INVOICE 42")
                    None
                    (Examples.provider_answering
                       (inl Examples.timeout) (inl Examples.refused))) |}).
Proof.
  split.
  - apply (proj1 (process_no_image Examples.service "INVOICE 42" None
                    (Examples.runtime_answering
                       (inr (Examples.meta 0.5)) (inl Examples.refused))
                    eq_refl eq_refl)
             (Examples.meta 0.5) eq_refl eq_refl).
  - apply (proj2 (process_no_image Examples.service "INVOICE 42" (Some [])
                    (Examples.runtime_answering
                       (inl Examples.timeout) (inl Examples.refused))
                    eq_refl eq_refl)
             Examples.timeout eq_refl).
Defined.

(** Tier 2 refusing: after Tier 1 at confidence 0.5, and after Tier 1
    timing out. *)
Lemma process_tier2_raises_witness :
  process Examples.service "INVOICE 42" Examples.png
    (Examples.runtime_answering
       (inr (Examples.meta 0.5)) (inl Examples.refused))
  = (inr (Meta (Examples.meta 0.5), TIER_1),
     {| invocations :=
          [] ++ [ {| text := Some "INVOICE 42"; image_bytes := None |} ]
             ++ [ {| text := None; image_bytes := Examples.png |} ];
        provider :=
          snd (extract_invoice_data Examples.openai None Examples.png
                 (snd (extract_invoice_data Examples.openai
                         (Some "INVOICE 42") None
                         (Examples.provider_answering
                            (inr (Examples.meta 0.5))
                            (inl Examples.refused))))) |})
  /\ process Examples.service "INVOICE 42" Examples.png
       (Examples.runtime_answering
          (inl Examples.timeout) (inl Examples.refused))
     = (inl Examples.refused,
        {| invocations :=
             [] ++ [ {| text := Some "INVOICE 42"; image_bytes := None |} ]
                ++ [ {| text := None; image_bytes := Examples.png |} ];
           provider :=
             snd (extract_invoice_data Examples.openai None Examples.png
                    (snd (extract_invoice_data Examples.openai
                            (Some "INVOICE 42") None
                            (Examples.provider_answering
                               (inl Examples.timeout)
                               (inl Examples.refused))))) |}).
Proof.
  split.
  - edestruct (process_tier2_raises Examples.service "INVOICE 42"
                 Examples.png
                 (Examples.runtime_answering
                    (inr (Examples.meta 0.5)) (inl Examples.refused)))
      as [Hlow _];
      [ reflexivity | reflexivity | reflexivity
      | exact (Hlow (Examples.meta 0.5) eq_refl eq_refl) ].
  - edestruct (process_tier2_raises Examples.service "INVOICE 42"
                 Examples.png
                 (Examples.runtime_answering
                    (inl Examples.timeout) (inl Examples.refused)))
      as [_ Hraise];
      [ reflexivity | reflexivity | reflexivity
      | exact (Hraise Examples.timeout eq_refl) ].
Defined.

(* ================================================================== *)
(** * Properties of the backends *)
(* ================================================================== *)

(** Under the example settings the service is built on the OpenAI backend,
    whatever the environment. *)
Lemma init_example_settings (environ : Environ) (threshold : float) :
  Cascade.init environ Examples.settings threshold
  = inr {| backend := UseOpenAI Examples.openai;
           confidence_threshold := threshold |}.
Proof. reflexivity. Qed.

(** A service built by [get_llm_backend] runs as one built on the backend
    chosen. *)
Lemma process_configured (b : OpenAIBackend) (threshold : float)
    (text : string) (image_bytes : option bytes) (rt : Runtime) :
  process {| backend := UseOpenAI b; confidence_threshold := threshold |}
    text image_bytes rt
  = process {| backend := b; confidence_threshold := threshold |}
      text image_bytes rt.
Proof. reflexivity. Qed.


(** So the class has no instance. *)
Lemma anthropic_backend_has_no_instance (self : AnthropicBackend) : False.
Proof. destruct self as [settings api_key built]. discriminate built. Qed.

(** What [get_llm_backend] returns is the OpenAI backend under the settings
    given, and the client found a key. *)
Lemma get_llm_backend_returns (environ : Environ) (settings : Settings)
    (b : ConfiguredBackend) :
  get_llm_backend environ settings = inr b ->
  LLM_PROVIDER settings = "openai"
  /\ b = UseOpenAI {| openai_settings := settings |}
  /\ (OPENAI_API_KEY settings <> None \/ environ "OPENAI_API_KEY" <> None).
Proof.
  unfold get_llm_backend, OpenAIBackend_init, AsyncOpenAI.
  destruct (String.eqb_spec (LLM_PROVIDER settings) "openai") as [Ho|Ho].
  - destruct (OPENAI_API_KEY settings) as [k|].
    + intros H. injection H as <-. repeat split; [exact Ho|]. now left.
    + destruct (environ "OPENAI_API_KEY") as [k|]; [|discriminate].
      intros H. injection H as <-. repeat split; [exact Ho|]. now right.
  - destruct (String.eqb (LLM_PROVIDER settings) "anthropic");
      discriminate.
Qed.



(** [extract_text] gives the empty text when the document cannot be opened
    and when a page cannot be read, whatever was read before it. *)
Lemma extract_text_failure (e : PyException)
    (pages : list (PyException + string)) :
  Processor.extract_text (inl e) = ""
  /\ (Processor.read_pages "" pages = inl e ->
      Processor.extract_text (inr pages) = "").
Proof.
  split; [reflexivity|]. intros H. unfold Processor.extract_text.
  now rewrite H.
Qed.

(** The branches test the truth value of their argument: an empty text with
    no image selects no model and sends no request (the case of C10). *)
Lemma openai_empty_text_selects_no_model :
  ~ exists messages,
      requests
        (snd (extract_invoice_data Examples.openai (Some "") None
                (Examples.provider_answering
                   (inr (Examples.meta 0.5)) (inl Examples.refused))))
      = [ {| model := MODEL_A_NAME defaults; messages := messages |} ].
Proof. intros [messages H]. discriminate H. Qed.

(** C8. A call of the OpenAI backend that supplies a text or an image (the
    argument passes the test of its branch, so it is not empty) sends the
    provider exactly one request: for model B when an image is supplied, for
    model A when a text is and no image. *)
Theorem openai_model_selection
    (self : OpenAIBackend) (text : option string)
    (image_bytes : option bytes) (p : Provider) :
  truthy_str text || truthy_bytes image_bytes = true ->
  let chosen :=
    if truthy_bytes image_bytes
    then MODEL_B_NAME (openai_settings self)
    else MODEL_A_NAME (openai_settings self) in
  exists messages,
    openai_prepare self text image_bytes = (messages, Some chosen)
    /\ requests (snd (extract_invoice_data self text image_bytes p))
       = requests p ++ [ {| model := chosen; messages := messages |} ].
Proof.
  intros H chosen. unfold chosen, extract_invoice_data, OpenAI_extract,
    openai_prepare.
  destruct (truthy_bytes image_bytes); simpl.
  - rewrite andb_false_r. eexists. split; reflexivity.
  - rewrite orb_false_r in H. rewrite H. simpl. eexists. split; reflexivity.
Qed.

Lemma openai_model_selection_witness :
  (exists messages,
      openai_prepare Examples.openai (Some "INVOICE 42") None
        = (messages, Some "gpt-4o-mini")
      /\ requests
           (snd (extract_invoice_data Examples.openai (Some "INVOICE 42") None
                   (Examples.provider_answering
                      (inr (Examples.meta 0.5)) (inl Examples.refused))))
         = [] ++ [ {| model := "gpt-4o-mini"; messages := messages |} ])
  /\ (exists messages,
         openai_prepare Examples.openai (Some "INVOICE 42") Examples.png
           = (messages, Some "gpt-4o")
         /\ requests
              (snd (extract_invoice_data Examples.openai (Some "INVOICE 42")
                      Examples.png
                      (Examples.provider_answering
                         (inr (Examples.meta 0.5)) (inl Examples.refused))))
            = [] ++ [ {| model := "gpt-4o"; messages := messages |} ]).
Proof.
  split.
  - apply (openai_model_selection Examples.openai (Some "INVOICE 42") None
             (Examples.provider_answering
                (inr (Examples.meta 0.5)) (inl Examples.refused)) eq_refl).
  - apply (openai_model_selection Examples.openai (Some "INVOICE 42")
             Examples.png
             (Examples.provider_answering
                (inr (Examples.meta 0.5)) (inl Examples.refused)) eq_refl).
Defined.

(** C10. With the empty text and no image bytes ([None] or empty) neither
    branch of the OpenAI backend binds [model]: the call raises and reaches
    no provider. A document whose text cannot be extracted gives the empty
    text, so on it Tier 1 falls through with no result kept and [process]
    goes on to Tier 2: with a usable image the outcome is the vision call's
    own, without one [process] raises. *)
Theorem openai_empty_text_escalates
    (b : OpenAIBackend) (threshold : float) (image_bytes : option bytes)
    (rt : Runtime) (e : PyException) :
  let self := {| backend := b; confidence_threshold := threshold |} in
  let tier1_call := {| text := Some ""; image_bytes := None |} in
  let rt1 := {| invocations := invocations rt ++ [tier1_call];
                provider := provider rt |} in
  openai_prepare b (Some "") None = ([], None)
  /\ openai_prepare b (Some "") (Some []) = ([], None)
  /\ extract_invoice_data b (Some "") None (provider rt)
     = (inl (UnboundLocalError "model"), provider rt)
  /\ extract_invoice_data b (Some "") (Some []) (provider rt)
     = (inl (UnboundLocalError "model"), provider rt)
  /\ Processor.extract_text (inl e) = ""
  /\ tier1 self (Processor.extract_text (inl e)) rt
     = (inr (FallThrough None), rt1)
  /\ process self (Processor.extract_text (inl e)) image_bytes rt
     = (if truthy_bytes image_bytes
        then
          let (r2, p2) :=
            extract_invoice_data b None image_bytes (provider rt) in
          (match r2 with
           | inr vision_result => inr (vision_result, TIER_2)
           | inl e2 => inl e2
           end,
           {| invocations :=
                invocations rt1
                ++ [ {| text := None; image_bytes := image_bytes |} ];
              provider := p2 |})
        else
          (inl no_image_error,
           rt1)).
Proof.
  intros self tier1_call rt1.
  assert (H1 : extract_invoice_data b (Some "") None (provider rt)
               = (inl (UnboundLocalError "model"), provider rt))
    by reflexivity.
  split; [reflexivity|]. split; [reflexivity|].
  split; [exact H1|]. split; [reflexivity|]. split; [reflexivity|].
  simpl Processor.extract_text. split.
  - apply (tier1_run self "" rt H1).
  - rewrite process_unfold, (tier1_run self "" rt H1). cbv iota beta.
    destruct (truthy_bytes image_bytes) eqn:Himg.
    + destruct (extract_invoice_data b None image_bytes (provider rt))
        as [r2 p2] eqn:H2.
      rewrite (@tier2_run _ _ self image_bytes None _ _ _ _ Himg H2).
      destruct r2; reflexivity.
    + apply tier2_no_image, Himg.
Qed.

(* ================================================================== *)
(** * The normalizer: characters, strings and the suffix pattern *)
(* ================================================================== *)

Import Re Normalizer.

Unset Implicit Arguments.

(** ** Characters *)

Lemma all_chars_complete (c : ascii) : In c all_chars.
Proof.
  unfold all_chars. rewrite <- (ascii_nat_embedding c).
  apply in_map, in_seq. pose proof (nat_ascii_bounded c). lia.
Qed.

Lemma for_all_chars_spec (p : ascii -> bool) :
  for_all_chars p = true -> forall c, p c = true.
Proof.
  unfold for_all_chars. rewrite forallb_forall.
  intros H c. apply H, all_chars_complete.
Qed.

Lemma alnum_not_space (c : ascii) : isalnum c = true -> isspace c = false.
Proof.
  revert c.
  assert (H : for_all_chars (fun c => implb (isalnum c) (negb (isspace c)))
              = true) by (vm_compute; reflexivity).
  intros c Hc. pose proof (for_all_chars_spec _ H c) as Hs.
  cbv beta in Hs. rewrite Hc in Hs. simpl in Hs. now apply negb_true_iff.
Qed.

Lemma alnum_word (c : ascii) : isalnum c = true -> isword c = true.
Proof. unfold isword. intros ->. reflexivity. Qed.

Lemma alnum_not_blank (c : ascii) :
  isalnum c = true -> Ascii.eqb c " " = false.
Proof.
  intros Hc.
  destruct (Ascii.eqb_spec c " ") as [->|]; [discriminate|reflexivity].
Qed.

Lemma dot_not_word (c : ascii) : Ascii.eqb c "." = true -> isword c = false.
Proof. intros H. apply Ascii.eqb_eq in H. subst c. reflexivity. Qed.

Lemma az_lower (p : ascii) : is_az p = true -> lower_char p = p.
Proof.
  assert (H : for_all_chars (fun p => implb (is_az p)
                (Ascii.eqb (lower_char p) p)) = true)
    by (vm_compute; reflexivity).
  intros Hp. pose proof (for_all_chars_spec _ H p) as Hs. cbv beta in Hs.
  rewrite Hp in Hs. now apply Ascii.eqb_eq.
Qed.

(** A character that matches a pattern letter a-z, case ignored, is a word
    character. *)
Lemma letter_match_word (c p : ascii) :
  is_az p = true -> Ascii.eqb (lower_char c) (lower_char p) = true ->
  isword c = true.
Proof.
  assert (H : for_all_chars (fun c => implb (is_az (lower_char c))
                (isword c)) = true) by (vm_compute; reflexivity).
  intros Hp Hm. rewrite (az_lower _ Hp) in Hm. apply Ascii.eqb_eq in Hm.
  pose proof (for_all_chars_spec _ H c) as Hs. cbv beta in Hs.
  rewrite Hm, Hp in Hs. exact Hs.
Qed.

(** ** Strings *)

Lemma length_append (u t : string) :
  String.length (u ++ t) = String.length u + String.length t.
Proof. induction u; simpl; congruence. Qed.

Lemma append_empty_r (s : string) : (s ++ "")%string = s.
Proof. induction s; simpl; congruence. Qed.

Lemma append_assoc (u v t : string) :
  ((u ++ v) ++ t)%string = (u ++ (v ++ t))%string.
Proof. induction u; simpl; congruence. Qed.

Lemma lower_length (s : string) : String.length (lower s) = String.length s.
Proof. induction s; simpl; congruence. Qed.

(** Every string starts with a maximal run of word characters. *)
Lemma word_span (s : string) :
  exists w rest,
    s = (w ++ rest)%string /\ Py.forallb isword w = true
    /\ word_at (head rest) = false.
Proof.
  induction s as [|c s IH].
  - exists "", "". repeat split.
  - destruct (isword c) eqn:Hc.
    + destruct IH as (w & rest & -> & Hw & Hrest).
      exists (String c w), rest. simpl. rewrite Hc, Hw. repeat split.
      exact Hrest.
    + exists "", (String c s). simpl. rewrite Hc. repeat split.
Qed.

(** ** The suffix pattern, word by word *)

(** On a run of word characters [w] followed by no word character, a literal
    of letters followed by [\b] matches exactly when it is [w] in lower
    case. *)
Lemma literal_ci_word (alt : string) :
  Py.forallb is_az alt = true ->
  forall (w rest : string) (last : option ascii),
    Py.forallb isword w = true ->
    word_at (head rest) = false ->
    alt <> "" \/ word_at last = true ->
    match literal_ci alt last (w ++ rest) with
    | Some (l, r) => if word_boundary l (head r) then Some r else None
    | None => None
    end
    = if String.eqb (lower w) alt then Some rest else None.
Proof.
  induction alt as [|p alt IH]; intros Haz w rest last Hw Hrest Hlast.
  - destruct Hlast as [Hne|Hlast]; [congruence|]. simpl.
    unfold word_boundary. rewrite Hlast.
    destruct w as [|c w]; simpl in *.
    + rewrite Hrest. reflexivity.
    + apply andb_true_iff in Hw. destruct Hw as [-> _]. reflexivity.
  - simpl in Haz. apply andb_true_iff in Haz. destruct Haz as [Hp Haz].
    destruct w as [|c w]; simpl in *.
    + destruct rest as [|d r]; [reflexivity|]. simpl in Hrest.
      destruct (Ascii.eqb (lower_char d) (lower_char p)) eqn:Hm;
        [|reflexivity].
      rewrite (letter_match_word _ _ Hp Hm) in Hrest. discriminate.
    + apply andb_true_iff in Hw. destruct Hw as [Hc Hw].
      rewrite (az_lower _ Hp).
      destruct (Ascii.eqb (lower_char c) p); [|reflexivity].
      apply IH; [exact Haz|exact Hw|exact Hrest|right; exact Hc].
Qed.

Lemma alternative_word (alt w rest : string) (prev : option ascii) :
  Py.forallb is_az alt = true -> alt <> "" ->
  Py.forallb isword w = true -> word_at (head rest) = false ->
  alternative alt prev (w ++ rest)
  = if String.eqb (lower w) alt
    then Some (String.length w
               + match rest with
                 | String c _ => if Ascii.eqb c "." then 1 else 0
                 | EmptyString => 0
                 end)
    else None.
Proof.
  intros Haz Hne Hw Hrest.
  pose proof (literal_ci_word alt Haz w rest prev Hw Hrest (or_introl Hne))
    as H.
  unfold alternative.
  destruct (literal_ci alt prev (w ++ rest)) as [[l r]|].
  - destruct (word_boundary l (head r)).
    + destruct (String.eqb_spec (lower w) alt) as [E|E]; [|discriminate].
      injection H as ->. rewrite <- E, lower_length.
      destruct rest as [|c r]; [now rewrite Nat.add_0_r|].
      destruct (Ascii.eqb c "."); f_equal; lia.
    + destruct (String.eqb (lower w) alt); [discriminate|reflexivity].
  - destruct (String.eqb (lower w) alt); [discriminate|reflexivity].
Qed.

Lemma alternatives_word (alts : list string) (w rest : string)
    (prev : option ascii) :
  List.forallb (fun alt => Py.forallb is_az alt && negb (String.eqb alt ""))
    alts = true ->
  Py.forallb isword w = true -> word_at (head rest) = false ->
  alternatives alts prev (w ++ rest)
  = if existsb (String.eqb (lower w)) alts
    then Some (String.length w
               + match rest with
                 | String c _ => if Ascii.eqb c "." then 1 else 0
                 | EmptyString => 0
                 end)
    else None.
Proof.
  intros Halts Hw Hrest. induction alts as [|alt alts IH]; [reflexivity|].
  simpl in Halts. apply andb_true_iff in Halts. destruct Halts as [Ha Halts].
  apply andb_true_iff in Ha. destruct Ha as [Haz Hne].
  apply negb_true_iff in Hne. apply String.eqb_neq in Hne.
  simpl. rewrite (alternative_word alt w rest prev Haz Hne Hw Hrest).
  destruct (String.eqb (lower w) alt); simpl; [reflexivity|].
  apply IH, Halts.
Qed.

(** At the start of a word: the pattern matches exactly when the whole word
    is a suffix, and takes one full stop after it. *)
Lemma suffix_match_word_start (prev : option ascii) (c : ascii)
    (w rest : string) :
  word_at prev = false ->
  Py.forallb isword (String c w) = true -> word_at (head rest) = false ->
  suffix_match prev (String c w ++ rest)
  = if Spec.is_suffix_word (String c w)
    then Some (String.length (String c w)
               + match rest with
                 | String d _ => if Ascii.eqb d "." then 1 else 0
                 | EmptyString => 0
                 end)
    else None.
Proof.
  intros Hprev Hw Hrest. unfold suffix_match, word_boundary.
  rewrite Hprev. simpl head. simpl word_at.
  simpl in Hw. apply andb_true_iff in Hw. destruct Hw as [Hc Hw].
  rewrite Hc. simpl xorb. cbv iota.
  unfold Spec.is_suffix_word.
  apply alternatives_word; [reflexivity| |exact Hrest].
  simpl. now rewrite Hc, Hw.
Qed.

(** Inside a word, and at a character that is no word character, the
    pattern does not match. *)
Lemma suffix_match_inside (prev : option ascii) (c : ascii) (r : string) :
  word_at prev = true -> isword c = true ->
  suffix_match prev (String c r) = None.
Proof.
  intros Hprev Hc. unfold suffix_match, word_boundary.
  rewrite Hprev. simpl. now rewrite Hc.
Qed.

Lemma suffix_match_nonword (prev : option ascii) (c : ascii) (r : string) :
  isword c = false -> suffix_match prev (String c r) = None.
Proof.
  intros Hc. unfold suffix_match.
  destruct (word_boundary prev (head (String c r))); [|reflexivity].
  change (String c r) with ("" ++ String c r)%string.
  rewrite alternatives_word; [reflexivity|reflexivity|reflexivity|].
  simpl. exact Hc.
Qed.

(** ** [re.sub] of the suffix pattern is the word-by-word stripping *)

(** The characters of a match are dropped. *)
Lemma sub_suffix_skip (u : string) :
  forall (prev : option ascii) (k : nat) (t : string),
    exists prev',
      sub_suffix_from prev (String.length u + k) (u ++ t)
      = sub_suffix_from prev' k t.
Proof.
  induction u as [|c u IH]; intros prev k t.
  - exists prev. reflexivity.
  - destruct (IH (Some c) k t) as [prev' H]. exists prev'. exact H.
Qed.

(** From inside a word, the rest of the word is kept. *)
Lemma sub_suffix_inside (w : string) :
  forall (prev : option ascii) (t : string),
    word_at prev = true -> Py.forallb isword w = true ->
    exists prev',
      sub_suffix_from prev 0 (w ++ t)
      = (w ++ sub_suffix_from prev' 0 t)%string.
Proof.
  induction w as [|c w IH]; intros prev t Hprev Hw.
  - exists prev. reflexivity.
  - simpl in Hw. apply andb_true_iff in Hw. destruct Hw as [Hc Hw].
    destruct (IH (Some c) t Hc Hw) as [prev' H]. exists prev'.
    change (String c w ++ t)%string with (String c (w ++ t)).
    cbn [sub_suffix_from].
    rewrite (suffix_match_inside prev c (w ++ t) Hprev Hc), H.
    reflexivity.
Qed.

(** A character that is no word character is kept, whatever precedes. *)
Lemma sub_suffix_nonword (prev : option ascii) (c : ascii) (r : string) :
  isword c = false ->
  sub_suffix_from prev 0 (String c r)
  = String c (sub_suffix_from (Some c) 0 r).
Proof.
  intros Hc. cbn [sub_suffix_from].
  now rewrite (suffix_match_nonword prev c r Hc).
Qed.

Lemma strip_words_run (isw : ascii -> bool) (w : string) :
  forall (word rest : string),
    Py.forallb isw w = true ->
    Spec.strip_words isw word (w ++ rest)
    = Spec.strip_words isw (word ++ w) rest.
Proof.
  induction w as [|c w IH]; intros word rest Hw.
  - now rewrite append_empty_r.
  - simpl in Hw. apply andb_true_iff in Hw. destruct Hw as [Hc Hw].
    simpl. rewrite Hc, (IH _ _ Hw), append_assoc. reflexivity.
Qed.

Lemma strip_words_nonword (isw : ascii -> bool) (word : string) (d : ascii)
    (r : string) :
  isw d = false ->
  Spec.strip_words isw word (String d r)
  = if Spec.is_suffix_word word
    then if Ascii.eqb d "." then Spec.strip_words isw "" r
         else String d (Spec.strip_words isw "" r)
    else (word ++ String d (Spec.strip_words isw "" r))%string.
Proof. intros Hd. simpl. now rewrite Hd. Qed.

Lemma sub_suffix_from_words (n : nat) :
  forall (s : string) (prev : option ascii),
    String.length s <= n -> word_at prev = false ->
    sub_suffix_from prev 0 s = Spec.strip_words isword "" s.
Proof.
  induction n as [|n IH]; intros s prev Hlen Hprev.
  - destruct s; [reflexivity|simpl in Hlen; lia].
  - destruct s as [|c s]; [reflexivity|].
    destruct (isword c) eqn:Hc.
    + (* a word starts here *)
      destruct (word_span s) as (w & rest & -> & Hw & Hrest).
      assert (Hcw : Py.forallb isword (String c w) = true)
        by (simpl; now rewrite Hc, Hw).
      simpl in Hlen. rewrite length_append in Hlen.
      change (String c (w ++ rest)) with (String c w ++ rest)%string.
      rewrite (strip_words_run isword (String c w) "" rest Hcw).
      change ("" ++ String c w)%string with (String c w).
      change (String c w ++ rest)%string with (String c (w ++ rest)).
      cbn [sub_suffix_from].
      change (String c (w ++ rest)) with (String c w ++ rest)%string.
      rewrite (suffix_match_word_start prev c w rest Hprev Hcw Hrest).
      destruct (Spec.is_suffix_word (String c w)) eqn:Hsuf.
      * (* a suffix: dropped, with the full stop after it *)
        cbn [String.length Nat.add].
        destruct (sub_suffix_skip w (Some c)
                    match rest with
                    | String d _ => if Ascii.eqb d "." then 1 else 0
                    | EmptyString => 0
                    end rest) as [prev' ->].
        destruct rest as [|d r].
        -- cbn [Spec.strip_words]. now rewrite Hsuf.
        -- simpl in Hrest. simpl in Hlen.
           rewrite (strip_words_nonword isword (String c w) d r Hrest), Hsuf.
           destruct (Ascii.eqb d ".") eqn:Hd.
           ++ cbn [sub_suffix_from]. apply IH; [lia|exact Hrest].
           ++ rewrite (sub_suffix_nonword prev' d r Hrest). f_equal.
              apply IH; [lia|exact Hrest].
      * (* another word: kept *)
        destruct (sub_suffix_inside w (Some c) rest Hc Hw) as [prev' ->].
        destruct rest as [|d r].
        -- cbn [Spec.strip_words]. rewrite Hsuf.
           cbn [sub_suffix_from]. now rewrite append_empty_r.
        -- simpl in Hrest. simpl in Hlen.
           rewrite (strip_words_nonword isword (String c w) d r Hrest), Hsuf.
           rewrite (sub_suffix_nonword prev' d r Hrest).
           cbn [append]. do 3 f_equal. apply IH; [lia|exact Hrest].
    + (* no word character: kept *)
      rewrite (sub_suffix_nonword prev c s Hc).
      rewrite (strip_words_nonword isword "" c s Hc).
      change (Spec.is_suffix_word "") with false. cbn [append]. f_equal.
      apply IH; [simpl in Hlen; lia|exact Hc].
Qed.

(** The substitution drops exactly the words, in the sense of [\w], that
    are suffixes. *)
Lemma sub_suffix_words (s : string) :
  sub_suffix s = Spec.strip_words isword "" s.
Proof.
  apply (sub_suffix_from_words (String.length s)); [lia|reflexivity].
Qed.

(** ** Strings without an underscore *)

Lemma forallb_impl (p q : ascii -> bool) (s : string) :
  (forall c, p c = true -> q c = true) ->
  Py.forallb p s = true -> Py.forallb q s = true.
Proof.
  intros Hpq. induction s as [|c s IH]; intros H; [reflexivity|].
  simpl in *. apply andb_true_iff in H. destruct H as [Hc H].
  now rewrite (Hpq c Hc), IH.
Qed.

Lemma forallb_append (p : ascii -> bool) (u t : string) :
  Py.forallb p (u ++ t) = Py.forallb p u && Py.forallb p t.
Proof.
  induction u as [|c u IH]; [reflexivity|].
  simpl. now rewrite IH, andb_assoc.
Qed.

Lemma forallb_lstrip (p : ascii -> bool) (s : string) :
  Py.forallb p s = true -> Py.forallb p (lstrip s) = true.
Proof.
  induction s as [|c s IH]; intros H; [reflexivity|].
  simpl. destruct (isspace c); [|exact H].
  simpl in H. apply andb_true_iff in H. apply IH, H.
Qed.

Lemma forallb_rstrip (p : ascii -> bool) (s : string) :
  Py.forallb p s = true -> Py.forallb p (rstrip s) = true.
Proof.
  induction s as [|c s IH]; intros H; [reflexivity|].
  simpl in H. apply andb_true_iff in H. destruct H as [Hc H].
  specialize (IH H). simpl. destruct (rstrip s) as [|d r].
  - destruct (isspace c); [reflexivity|]. simpl. now rewrite Hc.
  - simpl in *. now rewrite Hc.
Qed.

Lemma forallb_strip (p : ascii -> bool) (s : string) :
  Py.forallb p s = true -> Py.forallb p (strip s) = true.
Proof. intros H. apply forallb_rstrip, forallb_lstrip, H. Qed.

Lemma forallb_strip_words (p isw : ascii -> bool) (s : string) :
  forall word : string,
    Py.forallb p word = true -> Py.forallb p s = true ->
    Py.forallb p (Spec.strip_words isw word s) = true.
Proof.
  induction s as [|c s IH]; intros word Hword Hs; simpl.
  - destruct (Spec.is_suffix_word word); [reflexivity|exact Hword].
  - simpl in Hs. apply andb_true_iff in Hs. destruct Hs as [Hc Hs].
    destruct (isw c).
    + apply IH; [|exact Hs]. rewrite forallb_append, Hword. simpl.
      now rewrite Hc.
    + destruct (Spec.is_suffix_word word).
      * destruct (Ascii.eqb c "."); [now apply IH|].
        simpl. rewrite Hc. now apply IH.
      * rewrite forallb_append, Hword. simpl. rewrite Hc. now apply IH.
Qed.

Lemma filter_agree (p f g : ascii -> bool) (s : string) :
  (forall c, p c = true -> f c = g c) ->
  Py.forallb p s = true -> Py.filter f s = Py.filter g s.
Proof.
  intros Hfg. induction s as [|c s IH]; intros H; [reflexivity|].
  simpl in *. apply andb_true_iff in H. destruct H as [Hc H].
  now rewrite (Hfg c Hc), (IH H).
Qed.

Lemma word_is_alnum (c : ascii) :
  negb (Ascii.eqb c "_") = true -> isword c = isalnum c.
Proof.
  intros H. apply negb_true_iff in H. unfold isword. rewrite H.
  apply orb_false_r.
Qed.

(** Without underscores the words of [\w] are the alphanumeric words. *)
Lemma strip_words_alnum (s : string) :
  forall word : string,
    no_underscore s = true ->
    Spec.strip_words isword word s = Spec.strip_words isalnum word s.
Proof.
  unfold no_underscore.
  induction s as [|c s IH]; intros word Hs; [reflexivity|].
  simpl in Hs. apply andb_true_iff in Hs. destruct Hs as [Hc Hs].
  simpl. rewrite (word_is_alnum c Hc), !(IH _ Hs). reflexivity.
Qed.

(** * Properties of the normalizer *)

(** On a name without underscores the code's cleanup is the cleaned name of
    the specification. *)
Lemma clean_name_words (raw : string) :
  no_underscore raw = true -> clean_name raw = Spec.cleaned raw.
Proof.
  intros Hraw. unfold clean_name, Spec.cleaned, Spec.strip_suffix_words,
    Spec.keep_alnum_and_space, sub_nonword_nonspace.
  assert (Hs : no_underscore (strip raw) = true)
    by (apply forallb_strip, Hraw).
  rewrite sub_suffix_words, (strip_words_alnum _ "" Hs).
  f_equal.
  apply (filter_agree (fun c => negb (Ascii.eqb c "_"))).
  - intros c Hc. now rewrite (word_is_alnum c Hc).
  - apply forallb_strip_words; [reflexivity|exact Hs].
Qed.

Lemma lookup_unmatched (search_name : string) (d : Dict) :
  (forall k v, In (k, v) d -> lower k <> search_name) ->
  lookup search_name d = None.
Proof.
  induction d as [|[k v] d IH]; intros H; [reflexivity|].
  simpl. destruct (String.eqb_spec (lower k) search_name) as [E|_].
  - exfalso. apply (H k v); [left; reflexivity|exact E].
  - apply IH. intros k' v' Hin. apply (H k' v'). right. exact Hin.
Qed.

(** The fallback of [normalize], word by word. *)
Lemma normalize_fallback (self : CompanyNormalizer) (raw : string) :
  raw <> "" ->
  no_underscore raw = true ->
  (forall k v, In (k, v) (mappings self) ->
               lower k <> lower (Spec.cleaned raw)) ->
  normalize self (Some raw) = Spec.fallback_amended raw.
Proof.
  intros Hne Hraw Hkeys. destruct raw as [|c raw]; [congruence|].
  unfold normalize. rewrite (clean_name_words _ Hraw).
  rewrite (lookup_unmatched _ _ Hkeys). reflexivity.
Qed.

Lemma filter_all (keep : ascii -> bool) (s : string) :
  Py.forallb keep s = true -> Py.filter keep s = s.
Proof.
  induction s as [|c s IH]; intros H; [reflexivity|].
  simpl in *. apply andb_true_iff in H. destruct H as [-> H].
  now rewrite IH.
Qed.

Lemma lstrip_no_space (s : string) :
  Py.forallb (fun c => negb (isspace c)) s = true -> lstrip s = s.
Proof.
  destruct s as [|c s]; [reflexivity|]. simpl. intros H.
  apply andb_true_iff in H. destruct H as [Hc _].
  apply negb_true_iff in Hc. now rewrite Hc.
Qed.

Lemma rstrip_no_space (s : string) :
  Py.forallb (fun c => negb (isspace c)) s = true -> rstrip s = s.
Proof.
  induction s as [|c s IH]; intros H; [reflexivity|].
  simpl in *. apply andb_true_iff in H. destruct H as [Hc H].
  apply negb_true_iff in Hc. rewrite (IH H), Hc. destruct s; reflexivity.
Qed.

Lemma strip_no_space (s : string) :
  Py.forallb (fun c => negb (isspace c)) s = true -> strip s = s.
Proof.
  intros H. unfold strip. now rewrite (lstrip_no_space s H), rstrip_no_space.
Qed.

Lemma alnum_no_underscore (s : string) :
  Py.forallb isalnum s = true -> no_underscore s = true.
Proof.
  apply forallb_impl. intros c Hc.
  destruct (Ascii.eqb_spec c "_") as [->|]; [discriminate|reflexivity].
Qed.

(** On one alphanumeric word that is no suffix the cleanup changes
    nothing. *)
Lemma cleaned_alnum (s : string) :
  Py.forallb isalnum s = true -> Spec.is_suffix_word s = false ->
  Spec.cleaned s = s.
Proof.
  intros Halnum Hsuf.
  assert (Hsp : Py.forallb (fun c => negb (isspace c)) s = true).
  { apply (forallb_impl isalnum); [|exact Halnum].
    intros c Hc. now rewrite (alnum_not_space c Hc). }
  unfold Spec.cleaned, Spec.strip_suffix_words, Spec.keep_alnum_and_space.
  rewrite (strip_no_space s Hsp).
  rewrite <- (append_empty_r s) at 1.
  rewrite (strip_words_run isalnum s "" "" Halnum). simpl. rewrite Hsuf.
  rewrite filter_all; [apply (strip_no_space s Hsp)|].
  apply (forallb_impl isalnum); [|exact Halnum]. intros c ->. reflexivity.
Qed.




(** The same for every dictionary without the key. *)
Lemma normalize_home_depot (self : CompanyNormalizer) :
  (forall k v, In (k, v) (mappings self) -> lower k <> "the home depot") ->
  normalize self (Some "The Home Depot, Inc.") = "TheHomeDepot".
Proof.
  intros H.
  rewrite normalize_fallback; [reflexivity|discriminate|reflexivity|exact H].
Qed.

(** C9, as stated, fails: "Inc" is an output of [normalize] (of "In c"), is
    alphanumeric and matches no key of the empty dictionary, and [normalize]
    maps it to the empty string. *)
Lemma normalize_not_idempotent :
  ~ (forall (self : CompanyNormalizer) (raw : option string),
        let s := normalize self raw in
        Py.forallb isalnum s = true ->
        (forall k v, In (k, v) (mappings self) -> lower k <> lower s) ->
        normalize self (Some s) = s).
Proof.
  intros H. specialize (H Examples.no_mappings (Some "In c")).
  cbv zeta in H.
  assert (Hs : normalize Examples.no_mappings (Some "In c") = "Inc")
    by reflexivity.
  rewrite Hs in H.
  specialize (H eq_refl (fun k v (Hin : In (k, v) []) => match Hin with end)).
  vm_compute in H. discriminate H.
Qed.

(** C9, amended. For every non-empty string [s] of alphanumeric characters
    that is not itself a legal-entity suffix and matches no dictionary key,
    [normalize s] is [s]. *)
Theorem normalize_idempotent_on_clean (self : CompanyNormalizer)
    (s : string) :
  s <> "" ->
  Py.forallb isalnum s = true ->
  Spec.is_suffix_word s = false ->
  (forall k v, In (k, v) (mappings self) -> lower k <> lower s) ->
  normalize self (Some s) = s.
Proof.
  intros Hne Halnum Hsuf Hkeys.
  pose proof (cleaned_alnum s Halnum Hsuf) as Hclean.
  rewrite normalize_fallback;
    [|exact Hne|apply alnum_no_underscore, Halnum|now rewrite Hclean].
  unfold Spec.fallback_amended. rewrite Hclean.
  apply filter_all. apply (forallb_impl isalnum); [|exact Halnum].
  intros c Hc. now rewrite (alnum_not_blank c Hc).
Qed.

Lemma normalize_idempotent_on_clean_witness :
  normalize Examples.home_depot (Some "TheHomeDepot") = "TheHomeDepot".
Proof.
  apply (normalize_idempotent_on_clean Examples.home_depot "TheHomeDepot").
  - discriminate.
  - reflexivity.
  - reflexivity.
  - intros k v [H|[]]. injection H as <- <-. vm_compute. discriminate.
Defined.

(** ** The dictionary and its store *)

Lemma dict_set_fresh (d : Dict) (k v : string) :
  ~ In k (keys d) -> dict_set d k v = d ++ [(k, v)].
Proof.
  induction d as [|[k' v'] d IH]; intros Hk; [reflexivity|].
  simpl in *. destruct (String.eqb_spec k' k) as [E|_].
  - exfalso. apply Hk. left. exact E.
  - rewrite IH; [reflexivity|]. intros Hin. apply Hk. right. exact Hin.
Qed.

(** Loading what was dumped gives the dictionary back. *)
Lemma json_load_from (d2 : Dict) :
  forall d1 : Dict,
    NoDup (keys (d1 ++ d2)) ->
    fold_left (fun d kv => dict_set d (fst kv) (snd kv)) d2 d1 = d1 ++ d2.
Proof.
  induction d2 as [|[k v] d2 IH]; intros d1 Hnd.
  - now rewrite app_nil_r.
  - simpl. rewrite dict_set_fresh.
    + rewrite IH; rewrite <- app_assoc; [reflexivity|exact Hnd].
    + unfold keys in *. rewrite map_app in Hnd. simpl in Hnd.
      apply NoDup_remove_2 in Hnd. intros Hin. apply Hnd.
      apply in_or_app. left. exact Hin.
Qed.

Lemma json_load_dump (d : Dict) : NoDup (keys d) -> json_load d = d.
Proof. intros Hnd. apply (json_load_from d [] Hnd). Qed.

Lemma keys_dict_set (d : Dict) (k v : string) :
  keys (dict_set d k v) = if in_dec string_dec k (keys d)
                          then keys d else keys d ++ [k].
Proof.
  induction d as [|[k' v'] d IH]; [reflexivity|].
  simpl. destruct (String.eqb_spec k' k) as [E|E].
  - destruct (string_dec k' k); [reflexivity|contradiction].
  - simpl. rewrite IH. destruct (string_dec k' k); [contradiction|].
    destruct (in_dec string_dec k (keys d)); reflexivity.
Qed.

Lemma dict_set_nodup (d : Dict) (k v : string) :
  NoDup (keys d) -> NoDup (keys (dict_set d k v)).
Proof.
  intros Hnd. rewrite keys_dict_set.
  destruct (in_dec string_dec k (keys d)) as [|Hk]; [exact Hnd|].
  apply NoDup_app; [exact Hnd|repeat constructor; intros []|].
  intros x Hx [<-|[]]. contradiction.
Qed.

(** After [d[a] = b], the search for [a] in lower case stops at [a] when no
    other key has the same lower case. *)
Lemma lookup_dict_set (d : Dict) (a b : string) :
  (forall k, In k (keys d) -> lower k = lower a -> k = a) ->
  lookup (lower a) (dict_set d a b) = Some b.
Proof.
  induction d as [|[k v] d IH]; intros Hk; simpl.
  - now rewrite String.eqb_refl.
  - destruct (String.eqb_spec k a) as [->|Hne]; simpl.
    + now rewrite String.eqb_refl.
    + destruct (String.eqb_spec (lower k) (lower a)) as [E|_].
      * exfalso. apply Hne, Hk; [left; reflexivity|exact E].
      * apply IH. intros k' Hin. apply Hk. right. exact Hin.
Qed.

(** C6, as stated, fails: the key is stored as given, and the search is for
    the cleaned name. *)
Lemma add_then_reload_misses :
  add_then_reload Examples.no_mappings Examples.store_empty
    "Acme Inc." "ACME"
  <> "ACME".
Proof. vm_compute. discriminate. Qed.

(** C6, amended. When the store can be written, [a] is non-empty and is its
    own cleaned form up to case, and no other key of the dictionary has the
    lower case of [a], then after [add_mapping(a, b)] a fresh normalizer
    built from the store maps [a] to [b]. *)
Theorem add_mapping_round_trip (self : CompanyNormalizer) (st : Store)
    (a b : string) :
  NoDup (keys (mappings self)) ->
  writable st = true ->
  a <> "" ->
  lower (clean_name a) = lower a ->
  (forall k, In k (keys (mappings self)) -> lower k = lower a -> k = a) ->
  add_then_reload self st a b = b.
Proof.
  intros Hnd Hw Hne Hclean Hkeys.
  unfold add_then_reload, add_mapping, Normalizer.init, _load_dictionary,
    _save_dictionary.
  rewrite Hw. simpl content. cbv beta iota.
  rewrite (json_load_dump _ (dict_set_nodup _ a b Hnd)).
  destruct a as [|c a]; [congruence|].
  unfold normalize. simpl mappings. rewrite Hclean.
  now rewrite (lookup_dict_set _ _ b Hkeys).
Qed.

Lemma add_mapping_round_trip_witness :
  add_then_reload Examples.home_depot Examples.store "acme tools" "AcmeTools"
  = "AcmeTools".
Proof.
  apply (add_mapping_round_trip Examples.home_depot Examples.store "acme tools"
           "AcmeTools").
  - repeat constructor. intros [].
  - reflexivity.
  - discriminate.
  - reflexivity.
  - intros k [<-|[]] H. vm_compute in H. discriminate H.
Defined.

(* ================================================================== *)
(** * Further properties *)
(* ================================================================== *)

(** * More on the cascade *)

(** What [process] does, from the outcomes of the backend calls it makes:
    [r1] for the text call and, where it comes to that, [r2] for the image
    call. *)
Lemma process_run {B : Type} {E : LLMBackend B} (self : CascadeService B)
    (text : string) (image_bytes : option bytes) (rt : Runtime) :
  let t1 := {| Cascade.text := Some text; Cascade.image_bytes := None |} in
  let t2 := {| Cascade.text := None; Cascade.image_bytes := image_bytes |} in
  let (r1, p1) :=
    extract_invoice_data (backend self) (Some text) None (provider rt) in
  let (r2, p2) := extract_invoice_data (backend self) None image_bytes p1 in
  let kept :=
    match r1 with
    | inl _ => None
    | inr result => Some result
    end in
  let accepted :=
    match r1 with
    | inr (Meta m) => (confidence_threshold self <=? confidence m)%float
    | _ => false
    end in
  process self text image_bytes rt =
    if accepted then
      (match r1 with
       | inr result => inr (result, TIER_1)
       | inl e => inl e
       end,
       {| invocations := invocations rt ++ [t1]; provider := p1 |})
    else if truthy_bytes image_bytes then
      (match r2, kept with
       | inr vision_result, _ => inr (vision_result, TIER_2)
       | inl _, Some result => inr (result, TIER_1)
       | inl e, None => inl e
       end,
       {| invocations := invocations rt ++ [t1; t2]; provider := p2 |})
    else
      (match kept with
       | Some result => inr (result, TIER_1)
       | None => inl no_image_error
       end,
       {| invocations := invocations rt ++ [t1]; provider := p1 |}).
Proof.
  intros t1 t2.
  destruct (extract_invoice_data (backend self) (Some text) None (provider rt))
    as [r1 p1] eqn:H1.
  destruct (extract_invoice_data (backend self) None image_bytes p1)
    as [r2 p2] eqn:H2.
  rewrite process_unfold, (tier1_run self text rt H1).
  destruct (truthy_bytes image_bytes) eqn:Himg.
  - pose proof (fun result =>
      @tier2_run _ _ self image_bytes result (invocations rt ++ [t1])
        _ _ _ Himg H2) as T2.
    fold t1 in T2 |- *.
    destruct r1 as [e1|[|m]]; cbn.
    + rewrite T2, <- app_assoc. reflexivity.
    + rewrite T2, <- app_assoc. reflexivity.
    + destruct (confidence_threshold self <=? confidence m)%float;
        [reflexivity|]. rewrite T2, <- app_assoc. reflexivity.
  - pose proof (fun result rt1 =>
      @tier2_no_image _ _ self image_bytes result rt1 Himg) as T2.
    destruct r1 as [e1|[|m]]; cbn.
    + apply T2.
    + apply T2.
    + destruct (confidence_threshold self <=? confidence m)%float;
        [reflexivity|]. apply T2.
Qed.

(** X1. Whatever the backend does, [process] calls it with the text and no
    image first, and at most once more: with the image alone, and only when
    there is a usable image. *)
Theorem process_call_sequence {B : Type} {E : LLMBackend B}
    (self : CascadeService B) (text : string) (image_bytes : option bytes)
    (rt : Runtime) :
  let t1 := {| Cascade.text := Some text; Cascade.image_bytes := None |} in
  let t2 := {| Cascade.text := None; Cascade.image_bytes := image_bytes |} in
  invocations (snd (process self text image_bytes rt))
  = invocations rt ++ [t1]
  \/ (truthy_bytes image_bytes = true
      /\ invocations (snd (process self text image_bytes rt))
         = invocations rt ++ [t1; t2]).
Proof.
  intros t1 t2. pose proof (process_run self text image_bytes rt) as H.
  cbv zeta in H.
  destruct (extract_invoice_data (backend self) (Some text) None (provider rt))
    as [r1 p1].
  destruct (extract_invoice_data (backend self) None image_bytes p1)
    as [r2 p2].
  rewrite H.
  destruct (match r1 with
            | inr (Meta m) => (confidence_threshold self <=? confidence m)%float
            | _ => false
            end); [left; reflexivity|].
  destruct (truthy_bytes image_bytes); [right; split; reflexivity|].
  left; reflexivity.
Qed.

(** X2. [process] raises only when the text call raised: then, without a
    usable image, it raises the [ValueError] of the missing fallback, and with
    one, the exception of the image call. *)
Theorem process_raises_only_without_result {B : Type} {E : LLMBackend B}
    (self : CascadeService B) (text : string) (image_bytes : option bytes)
    (rt : Runtime) (e : PyException) :
  fst (process self text image_bytes rt) = inl e ->
  exists e1,
    fst (extract_invoice_data (backend self) (Some text) None (provider rt))
    = inl e1
    /\ ((truthy_bytes image_bytes = false /\ e = no_image_error)
        \/ (truthy_bytes image_bytes = true
            /\ fst (extract_invoice_data (backend self) None image_bytes
                      (snd (extract_invoice_data (backend self) (Some text)
                              None (provider rt))))
               = inl e)).
Proof.
  intros He. pose proof (process_run self text image_bytes rt) as H.
  cbv zeta in H.
  destruct (extract_invoice_data (backend self) (Some text) None (provider rt))
    as [r1 p1].
  cbn [fst snd].
  destruct (extract_invoice_data (backend self) None image_bytes p1)
    as [r2 p2].
  rewrite H in He. clear H. cbn [fst].
  destruct r1 as [e1|[|m]].
  - exists e1. split; [reflexivity|].
    destruct (truthy_bytes image_bytes); cbn in He.
    + right. split; [reflexivity|].
      destruct r2; [now injection He as ->|discriminate].
    + left. split; [reflexivity|]. now injection He.
  - destruct (truthy_bytes image_bytes); cbn in He;
      [destruct r2|]; discriminate.
  - destruct (confidence_threshold self <=? confidence m)%float;
      [discriminate|].
    destruct (truthy_bytes image_bytes); cbn in He;
      [destruct r2|]; discriminate.
Qed.

Lemma process_raises_only_without_result_witness :
  exists e1,
    fst (extract_invoice_data (backend Examples.service) (Some "INVOICE 42")
           None
           (provider (Examples.runtime_answering
                        (inl Examples.timeout) (inl Examples.refused))))
    = inl e1
    /\ ((truthy_bytes Examples.png = false
         /\ Examples.refused = no_image_error)
        \/ (truthy_bytes Examples.png = true
            /\ fst (extract_invoice_data (backend Examples.service) None
                      Examples.png
                      (snd (extract_invoice_data (backend Examples.service)
                              (Some "INVOICE 42") None
                              (provider (Examples.runtime_answering
                                           (inl Examples.timeout)
                                           (inl Examples.refused))))))
               = inl Examples.refused)).
Proof.
  apply (process_raises_only_without_result Examples.service "INVOICE 42"
           Examples.png
           (Examples.runtime_answering
              (inl Examples.timeout) (inl Examples.refused))).
  reflexivity.
Defined.

(** X3. The tier returned says where the result comes from: with [TIER_1]
    the result is what the text call returned, with [TIER_2] there was a
    usable image and the result is what the image call returned. *)
Theorem process_tier_is_truthful {B : Type} {E : LLMBackend B}
    (self : CascadeService B) (text : string) (image_bytes : option bytes)
    (rt : Runtime) (out : PyObject) (tier : TierUsed) :
  fst (process self text image_bytes rt) = inr (out, tier) ->
  match tier with
  | TIER_1 =>
      fst (extract_invoice_data (backend self) (Some text) None (provider rt))
      = inr out
  | TIER_2 =>
      truthy_bytes image_bytes = true
      /\ fst (extract_invoice_data (backend self) None image_bytes
                (snd (extract_invoice_data (backend self) (Some text) None
                        (provider rt))))
         = inr out
  end.
Proof.
  intros Ho. pose proof (process_run self text image_bytes rt) as H.
  cbv zeta in H.
  destruct (extract_invoice_data (backend self) (Some text) None (provider rt))
    as [r1 p1].
  cbn [fst snd].
  destruct (extract_invoice_data (backend self) None image_bytes p1)
    as [r2 p2].
  rewrite H in Ho. clear H. cbn [fst].
  destruct r1 as [e1|[|m]].
  - destruct (truthy_bytes image_bytes); cbn in Ho; [|discriminate].
    destruct r2; [discriminate|]. injection Ho as <- <-. now split.
  - destruct (truthy_bytes image_bytes); cbn in Ho.
    + destruct r2; injection Ho as <- <-; [reflexivity|now split].
    + injection Ho as <- <-. reflexivity.
  - destruct (confidence_threshold self <=? confidence m)%float.
    + cbn in Ho. injection Ho as <- <-. reflexivity.
    + destruct (truthy_bytes image_bytes); cbn in Ho.
      * destruct r2; injection Ho as <- <-; [reflexivity|now split].
      * injection Ho as <- <-. reflexivity.
Qed.

Lemma process_tier_is_truthful_witness :
  truthy_bytes Examples.png = true
  /\ fst (extract_invoice_data (backend Examples.service) None Examples.png
            (snd (extract_invoice_data (backend Examples.service)
                    (Some "INVOICE 42") None
                    (provider (Examples.runtime_answering
                                 (inr (Examples.meta 0.5))
                                 (inr (Examples.meta 0)))))))
     = inr (Meta (Examples.meta 0)).
Proof.
  apply (process_tier_is_truthful Examples.service "INVOICE 42" Examples.png
           (Examples.runtime_answering
              (inr (Examples.meta 0.5)) (inr (Examples.meta 0)))
           (Meta (Examples.meta 0)) TIER_2).
  reflexivity.
Defined.

(** Only a NaN differs from itself. *)
Lemma spec_nan (a : SpecFloat.spec_float) :
  SpecFloat.SFeqb a a = false -> a = SpecFloat.S754_nan.
Proof.
  unfold SpecFloat.SFeqb. destruct a as [s|s| |s m e]; simpl.
  - discriminate.
  - destruct s; discriminate.
  - reflexivity.
  - rewrite Z.compare_refl.
    change (Pos.compare_cont Eq m m) with (Pos.compare m m).
    rewrite Pos.compare_refl. destruct s; discriminate.
Qed.

(** A NaN compares false with everything. *)
Lemma nan_not_leb (x y : float) :
  is_nan x = true \/ is_nan y = true -> (x <=? y)%float = false.
Proof.
  unfold is_nan. rewrite leb_spec, !eqb_spec. unfold SpecFloat.SFleb.
  intros [H|H]; apply negb_true_iff, spec_nan in H; rewrite H.
  - reflexivity.
  - destruct (Prim2SF x); reflexivity.
Qed.

(** X4. A confidence that is NaN, or a threshold that is NaN, never passes
    the test of Tier 1: the result is kept as the fallback, and [process]
    returns it only when there is no usable image or the image call
    raises. *)
Theorem nan_confidence_escalates {B : Type} {E : LLMBackend B}
    (self : CascadeService B) (text : string) (rt : Runtime)
    (m : InvoiceMetadata) (p1 : Provider) :
  is_nan (confidence m) = true \/ is_nan (confidence_threshold self) = true ->
  extract_invoice_data (backend self) (Some text) None (provider rt)
  = (inr (Meta m), p1) ->
  fst (tier1 self text rt) = inr (FallThrough (Some (Meta m)))
  /\ forall image_bytes : option bytes,
       fst (process self text image_bytes rt)
       = if truthy_bytes image_bytes
         then match fst (extract_invoice_data (backend self) None
                           image_bytes p1) with
              | inr vision_result => inr (vision_result, TIER_2)
              | inl _ => inr (Meta m, TIER_1)
              end
         else inr (Meta m, TIER_1).
Proof.
  intros Hnan H1.
  assert (Hc : (confidence_threshold self <=? confidence m)%float = false)
    by (apply nan_not_leb; tauto).
  split.
  - rewrite (tier1_run self text rt H1). cbn. now rewrite Hc.
  - intros image_bytes.
    pose proof (process_run self text image_bytes rt) as H. cbv zeta in H.
    rewrite H1 in H.
    destruct (extract_invoice_data (backend self) None image_bytes p1)
      as [r2 p2].
    rewrite H, Hc. cbn [fst].
    destruct (truthy_bytes image_bytes); [|reflexivity].
    destruct r2; reflexivity.
Qed.

Lemma nan_confidence_escalates_witness :
  fst (tier1 Examples.service "INVOICE 42"
         (Examples.runtime_answering
            (inr (Examples.meta nan)) (inl Examples.refused)))
  = inr (FallThrough (Some (Meta (Examples.meta nan))))
  /\ forall image_bytes : option bytes,
       fst (process Examples.service "INVOICE 42" image_bytes
              (Examples.runtime_answering
                 (inr (Examples.meta nan)) (inl Examples.refused)))
       = if truthy_bytes image_bytes
         then match fst (extract_invoice_data Examples.openai None
                           image_bytes
                           (snd (extract_invoice_data Examples.openai
                                   (Some "INVOICE 42") None
                                   (Examples.provider_answering
                                      (inr (Examples.meta nan))
                                      (inl Examples.refused))))) with
              | inr vision_result => inr (vision_result, TIER_2)
              | inl _ => inr (Meta (Examples.meta nan), TIER_1)
              end
         else inr (Meta (Examples.meta nan), TIER_1).
Proof.
  apply (nan_confidence_escalates Examples.service "INVOICE 42"
           (Examples.runtime_answering
              (inr (Examples.meta nan)) (inl Examples.refused))
           (Examples.meta nan)).
  - left. reflexivity.
  - reflexivity.
Defined.

(** * More on the backends *)

(** X5. In image mode the OpenAI backend sends the same request whatever
    the image and the text are: one fixed message for model B, which holds
    neither. *)
Theorem openai_vision_request_ignores_image (self : OpenAIBackend)
    (text text' : option string) (image_bytes image_bytes' : option bytes)
    (p : Provider) :
  truthy_bytes image_bytes = true ->
  truthy_bytes image_bytes' = true ->
  extract_invoice_data self text image_bytes p
  = extract_invoice_data self text' image_bytes' p
  /\ openai_prepare self text image_bytes
     = ([ {| Interface.role := "user";
             Interface.content :=
               "Extract invoice details from this image." |} ],
        Some (MODEL_B_NAME (openai_settings self))).
Proof.
  intros H H'. unfold extract_invoice_data, OpenAI_extract, openai_prepare.
  rewrite H, H', !andb_false_r. split; reflexivity.
Qed.

Lemma openai_vision_request_ignores_image_witness :
  extract_invoice_data Examples.openai (Some "INVOICE 42") Examples.png
    (Examples.provider_answering (inl Examples.timeout)
       (inr (Examples.meta 0.5)))
  = extract_invoice_data Examples.openai None (Some [x00])
      (Examples.provider_answering (inl Examples.timeout)
         (inr (Examples.meta 0.5)))
  /\ openai_prepare Examples.openai (Some "INVOICE 42") Examples.png
     = ([ {| Interface.role := "user";
             Interface.content :=
               "Extract invoice details from this image." |} ],
        Some "gpt-4o").
Proof.
  apply (openai_vision_request_ignores_image Examples.openai
           (Some "INVOICE 42") None Examples.png (Some [x00])
           (Examples.provider_answering (inl Examples.timeout)
              (inr (Examples.meta 0.5))));
    reflexivity.
Defined.

(** A request, once sent, is on the provider's record. *)
Lemma create_sends (model : string) (messages : list Message)
    (p : Provider) :
  requests (snd (create model messages p)) <> requests p
  /\ forall e, create model messages p <> (inl e, p).
Proof.
  assert (H : requests (snd (create model messages p)) <> requests p).
  { simpl. intros H. apply (f_equal (@List.length Request)) in H.
    rewrite length_app in H. simpl in H. lia. }
  split; [exact H|]. intros e He. apply H. now rewrite He.
Qed.

(** X6. A call of the OpenAI backend raises [UnboundLocalError] without
    reaching the provider exactly when neither a non-empty text nor a
    non-empty image is given; in every other case the provider's record of
    requests changes. *)
Theorem openai_reaches_provider_iff (self : OpenAIBackend)
    (text : option string) (image_bytes : option bytes) (p : Provider) :
  (truthy_str text || truthy_bytes image_bytes = false
   <-> extract_invoice_data self text image_bytes p
       = (inl (UnboundLocalError "model"), p))
  /\ (truthy_str text || truthy_bytes image_bytes = false
      <-> requests (snd (extract_invoice_data self text image_bytes p))
          = requests p).
Proof.
  unfold extract_invoice_data, OpenAI_extract, openai_prepare.
  destruct (truthy_str text), (truthy_bytes image_bytes); cbn [andb orb negb];
    cbv iota; (split; (split; [try discriminate|]));
    try reflexivity; intros H; exfalso;
    first [ now apply (proj2 (create_sends _ _ p)) in H
          | now apply (proj1 (create_sends _ _ p)) in H ].
Qed.

(** X7. [CascadeService()] succeeds exactly when [LLM_PROVIDER] is "openai"
    and the client finds a key, in the settings or else in the environment;
    the service then holds the threshold given and the OpenAI backend under
    these settings. Every other configuration raises: the client's error
    for "openai" without a key, [AttributeError] for "anthropic", and the
    [ValueError] that names the provider exactly when it is neither. *)
Theorem service_init_outcome (environ : Environ) (settings : Settings)
    (threshold : float) :
  let built :=
    {| backend := UseOpenAI {| openai_settings := settings |};
       confidence_threshold := threshold |} in
  let has_key :=
    OPENAI_API_KEY settings <> None \/ environ "OPENAI_API_KEY" <> None in
  (Cascade.init environ settings threshold = inr built
   <-> LLM_PROVIDER settings = "openai" /\ has_key)
  /\ (forall self,
        Cascade.init environ settings threshold = inr self -> self = built)
  /\ (Cascade.init environ settings threshold = inl no_api_key
      <-> LLM_PROVIDER settings = "openai" /\ ~ has_key)
  /\ (Cascade.init environ settings threshold
      = inl (AttributeError "ANTHROPIC_API_KEY")
      <-> LLM_PROVIDER settings = "anthropic")
  /\ (Cascade.init environ settings threshold
      = inl (ValueError ("Unsupported LLM provider: "
                         ++ LLM_PROVIDER settings)%string)
      <-> LLM_PROVIDER settings <> "openai"
          /\ LLM_PROVIDER settings <> "anthropic").
Proof.
  intros built has_key. subst built has_key.
  unfold Cascade.init, get_llm_backend, OpenAIBackend_init, AsyncOpenAI,
    AnthropicBackend_init, ANTHROPIC_API_KEY, no_api_key.
  destruct (String.eqb_spec (LLM_PROVIDER settings) "openai") as [Ho|Ho].
  - assert (Ha : LLM_PROVIDER settings <> "anthropic")
      by (rewrite Ho; discriminate).
    destruct (OPENAI_API_KEY settings) as [k|];
      [|destruct (environ "OPENAI_API_KEY") as [k|]];
      repeat split; try discriminate; try tauto; try congruence;
      solve [ left; discriminate
            | right; discriminate
            | intros [_ H]; exfalso; apply H;
              first [left; discriminate | right; discriminate]
            | intros [H|H]; now apply H ].
  - destruct (String.eqb_spec (LLM_PROVIDER settings) "anthropic") as [Ha|Ha];
      repeat split; try discriminate; try tauto; congruence.
Qed.

(** * More on the normalizer's dictionary *)

(** X8. Building a normalizer a second time gives the same dictionary and
    leaves the store as the first left it; a missing file in a writable place
    is created holding the empty dictionary; an unreadable file gives the
    empty dictionary and is left as it is. *)
Theorem init_settles (st : Store) :
  Normalizer.init (snd (Normalizer.init st)) = Normalizer.init st
  /\ (content st = Absent -> writable st = true ->
      Normalizer.init st
      = ({| mappings := [] |},
         {| content := JsonObject []; writable := true |}))
  /\ (content st = Unreadable ->
      Normalizer.init st = ({| mappings := [] |}, st)).
Proof.
  unfold Normalizer.init, _load_dictionary, _save_dictionary.
  destruct st as [[| |members] [|]]; simpl; repeat split; try discriminate.
Qed.

(** X10. [add_mapping] sets the key in memory; when the store can be
    written the file then holds exactly the dictionary in memory and a fresh
    normalizer loads that same dictionary, and when it cannot the store is
    left untouched. *)
Theorem add_mapping_persists (self : CompanyNormalizer) (st : Store)
    (a b : string) :
  NoDup (keys (mappings self)) ->
  let (self', st') := add_mapping self a b st in
  mappings self' = dict_set (mappings self) a b
  /\ if writable st
     then content st' = JsonObject (mappings self')
          /\ Normalizer.init st' = (self', st')
     else st' = st.
Proof.
  intros Hnd. unfold add_mapping, _save_dictionary.
  split; [reflexivity|]. destruct (writable st) eqn:Hw; [|reflexivity].
  split; [reflexivity|]. unfold Normalizer.init, _load_dictionary.
  simpl. now rewrite (json_load_dump _ (dict_set_nodup _ a b Hnd)).
Qed.

Lemma add_mapping_persists_witness :
  let (self', st') :=
    add_mapping Examples.home_depot "acme tools" "AcmeTools" Examples.store in
  mappings self'
  = dict_set (mappings Examples.home_depot) "acme tools" "AcmeTools"
  /\ if writable Examples.store
     then content st' = JsonObject (mappings self')
          /\ Normalizer.init st' = (self', st')
     else st' = Examples.store.
Proof.
  apply (add_mapping_persists Examples.home_depot Examples.store
           "acme tools" "AcmeTools").
  repeat constructor. intros [].
Defined.

(** X11. After a load that failed on an unreadable file, the first
    [add_mapping] replaces the file: it then holds the new mapping alone. *)
Theorem add_mapping_replaces_unreadable (st : Store) (a b : string) :
  content st = Unreadable -> writable st = true ->
  let (self, st1) := Normalizer.init st in
  content (snd (add_mapping self a b st1)) = JsonObject [(a, b)].
Proof.
  intros Hc Hw. unfold Normalizer.init, _load_dictionary.
  rewrite Hc. unfold add_mapping, _save_dictionary. rewrite Hw. reflexivity.
Qed.

Lemma lookup_dict_set_other (d : Dict) (a b search_name : string) :
  lower a <> search_name ->
  lookup search_name (dict_set d a b) = lookup search_name d.
Proof.
  intros Hne. induction d as [|[k v] d IH]; simpl.
  - destruct (String.eqb_spec (lower a) search_name); [contradiction|].
    reflexivity.
  - destruct (String.eqb_spec k a) as [->|Hk]; simpl.
    + destruct (String.eqb_spec (lower a) search_name); [contradiction|].
      reflexivity.
    + now rewrite IH.
Qed.

(** X12. [add_mapping(a, b)] changes [normalize] only for names whose
    cleaned form is [a] up to case: every other name, the empty and the absent
    one too, normalizes as before. *)
Theorem add_mapping_frame (self : CompanyNormalizer) (st : Store)
    (a b : string) (raw_name : option string) :
  (forall raw, raw_name = Some raw -> lower (clean_name raw) <> lower a) ->
  normalize (fst (add_mapping self a b st)) raw_name
  = normalize self raw_name.
Proof.
  intros H. destruct raw_name as [[|c raw]|]; try reflexivity.
  unfold normalize. simpl mappings.
  rewrite lookup_dict_set_other; [reflexivity|].
  intros E. now apply (H (String c raw) eq_refl).
Qed.

Lemma add_mapping_frame_witness :
  normalize (fst (add_mapping Examples.home_depot "acme tools" "AcmeTools"
                    Examples.store)) (Some "Home Depot Inc.")
  = normalize Examples.home_depot (Some "Home Depot Inc.").
Proof.
  apply (add_mapping_frame Examples.home_depot Examples.store "acme tools"
           "AcmeTools" (Some "Home Depot Inc.")).
  intros raw H. injection H as <-. vm_compute. discriminate.
Defined.

Lemma dict_set_twice (d : Dict) (a b c : string) :
  dict_set (dict_set d a b) a c = dict_set d a c.
Proof.
  induction d as [|[k v] d IH]; simpl.
  - now rewrite String.eqb_refl.
  - destruct (String.eqb_spec k a) as [->|Hk]; simpl.
    + now rewrite String.eqb_refl.
    + destruct (String.eqb_spec k a); [contradiction|]. now rewrite IH.
Qed.

(** X13. Of two [add_mapping] calls on one key the later value stays: the
    normalizer and the store are as if only the second call was made, and the
    second call adds no key. *)
Theorem add_mapping_last_wins (self : CompanyNormalizer) (st : Store)
    (a b c : string) :
  let (self1, st1) := add_mapping self a b st in
  add_mapping self1 a c st1 = add_mapping self a c st
  /\ keys (mappings (fst (add_mapping self1 a c st1)))
     = keys (mappings self1).
Proof.
  unfold add_mapping, _save_dictionary. simpl mappings.
  rewrite dict_set_twice. split.
  - destruct (writable st) eqn:Hw; simpl; rewrite ?Hw; reflexivity.
  - rewrite !keys_dict_set.
    destruct (in_dec string_dec a (keys (mappings self))); reflexivity.
Qed.

Lemma add_mapping_replaces_unreadable_witness :
  let (self, st1) := Normalizer.init Samples.corrupt in
  content (snd (add_mapping self "acme" "Acme" st1))
  = JsonObject [("acme", "Acme")].
Proof.
  apply (add_mapping_replaces_unreadable Samples.corrupt "acme" "Acme");
    reflexivity.
Defined.

(** * More on [normalize] *)

Lemma lookup_first (search_name : string) (d1 d2 : Dict) (k v : string) :
  (forall k' v', In (k', v') d1 -> lower k' <> search_name) ->
  lower k = search_name ->
  lookup search_name (d1 ++ (k, v) :: d2) = Some v.
Proof.
  intros H1 Hk. induction d1 as [|[k' v'] d1 IH]; simpl.
  - destruct (String.eqb_spec (lower k) search_name); [reflexivity|].
    contradiction.
  - destruct (String.eqb_spec (lower k') search_name) as [E|_].
    + exfalso. apply (H1 k' v'); [left; reflexivity|exact E].
    + apply IH. intros k'' v'' Hin. apply (H1 k'' v''). right. exact Hin.
Qed.

(** X14. When several keys have the lower case of the cleaned name, the
    one inserted first gives the result. *)
Theorem normalize_first_match_wins (self : CompanyNormalizer)
    (raw : string) (d1 d2 : Dict) (k v : string) :
  raw <> "" ->
  mappings self = d1 ++ (k, v) :: d2 ->
  (forall k' v', In (k', v') d1 -> lower k' <> lower (clean_name raw)) ->
  lower k = lower (clean_name raw) ->
  normalize self (Some raw) = v.
Proof.
  intros Hne Hm H1 Hk. destruct raw as [|c raw]; [congruence|].
  unfold normalize. rewrite Hm. now rewrite (lookup_first _ d1 d2 k v H1 Hk).
Qed.

Lemma normalize_first_match_wins_witness :
  normalize Samples.two_keys (Some "Acme, Inc.") = "Acme".
Proof.
  apply (normalize_first_match_wins Samples.two_keys "Acme, Inc."
           [] [("acme", "acme_lower")] "ACME" "Acme").
  - discriminate.
  - reflexivity.
  - intros k' v' [].
  - reflexivity.
Defined.

Lemma forallb_filter (p f : ascii -> bool) (s : string) :
  Py.forallb p s = true -> Py.forallb p (Py.filter f s) = true.
Proof.
  induction s as [|c s IH]; intros H; [reflexivity|].
  simpl in H. apply andb_true_iff in H. destruct H as [Hc H].
  simpl. destruct (f c); [simpl; rewrite Hc|]; apply IH, H.
Qed.

Lemma forallb_filtered (f : ascii -> bool) (s : string) :
  Py.forallb f (Py.filter f s) = true.
Proof.
  induction s as [|c s IH]; [reflexivity|].
  simpl. destruct (f c) eqn:Hc; [simpl; rewrite Hc|]; exact IH.
Qed.

(** X15. When no key matches, the result holds no space character and
    nothing but word characters and whitespace. *)
Theorem normalize_fallback_is_safe (self : CompanyNormalizer) (raw : string) :
  raw <> "" ->
  lookup (lower (clean_name raw)) (mappings self) = None ->
  Py.forallb (fun c => (isword c || isspace c) && negb (Ascii.eqb c " "))
    (normalize self (Some raw)) = true.
Proof.
  intros Hne Hl. destruct raw as [|c raw]; [congruence|].
  unfold normalize. rewrite Hl. unfold remove_spaces.
  assert (H : forall p q s, Py.forallb p s = true -> Py.forallb q s = true ->
              Py.forallb (fun c => p c && q c) s = true).
  { intros p q s. induction s as [|x s IH]; [reflexivity|]. simpl.
    intros Hp Hq. apply andb_true_iff in Hp, Hq.
    destruct Hp as [-> Hp], Hq as [-> Hq]. now apply IH. }
  apply (H (fun c => isword c || isspace c)
           (fun c => negb (Ascii.eqb c " "))).
  - apply forallb_filter. unfold clean_name, sub_nonword_nonspace.
    apply forallb_strip, forallb_filtered.
  - apply forallb_filtered.
Qed.

Lemma normalize_fallback_is_safe_witness :
  Py.forallb (fun c => (isword c || isspace c) && negb (Ascii.eqb c " "))
    (normalize Examples.home_depot (Some "The Home Depot, Inc.")) = true.
Proof.
  apply (normalize_fallback_is_safe Examples.home_depot
           "The Home Depot, Inc.").
  - discriminate.
  - reflexivity.
Defined.

(** ** Trimming *)

Lemma lstrip_head (s : string) :
  match lstrip s with
  | EmptyString => True
  | String c _ => isspace c = false
  end.
Proof.
  induction s as [|c s IH]; simpl; [exact I|].
  destruct (isspace c) eqn:Hc; [exact IH|exact Hc].
Qed.

Lemma rstrip_head (c : ascii) (r : string) :
  isspace c = false -> exists r', rstrip (String c r) = String c r'.
Proof.
  intros Hc. simpl. destruct (rstrip r) as [|d r'].
  - rewrite Hc. now exists "".
  - now exists (String d r').
Qed.

Lemma rstrip_idem (s : string) : rstrip (rstrip s) = rstrip s.
Proof.
  induction s as [|c s IH]; [reflexivity|].
  simpl. destruct (rstrip s) as [|d r] eqn:Hr.
  - destruct (isspace c) eqn:Hc; [reflexivity|]. simpl. now rewrite Hc.
  - change (rstrip (String c (String d r))) with
      (match rstrip (String d r) with
       | EmptyString => if isspace c then "" else String c ""
       | r' => String c r'
       end).
    rewrite IH. reflexivity.
Qed.

Lemma strip_idem (s : string) : strip (strip s) = strip s.
Proof.
  unfold strip. pose proof (lstrip_head s) as Hh.
  destruct (lstrip s) as [|c r]; [reflexivity|].
  destruct (rstrip_head c r Hh) as [r' Hr]. rewrite Hr.
  cbn [lstrip]. rewrite Hh, <- Hr. apply rstrip_idem.
Qed.

Lemma strip_all_space (s : string) :
  Py.forallb isspace s = true -> strip s = "".
Proof.
  intros H. unfold strip.
  assert (Hl : lstrip s = "").
  { induction s as [|c s IH]; [reflexivity|]. simpl in *.
    apply andb_true_iff in H. destruct H as [-> H]. apply IH, H. }
  now rewrite Hl.
Qed.

Lemma strip_words_nonwords (s : string) :
  Py.forallb (fun c => negb (isword c)) s = true ->
  Spec.strip_words isword "" s = s.
Proof.
  induction s as [|c s IH]; intros H; [reflexivity|].
  simpl in H. apply andb_true_iff in H. destruct H as [Hc H].
  apply negb_true_iff in Hc.
  rewrite (strip_words_nonword isword "" c s Hc).
  change (Spec.is_suffix_word "") with false. cbn [append].
  now rewrite (IH H).
Qed.

(** A name without a word character cleans to the empty string. *)
Lemma clean_name_nonwords (raw : string) :
  Py.forallb (fun c => negb (isword c)) raw = true -> clean_name raw = "".
Proof.
  intros H. unfold clean_name, sub_nonword_nonspace.
  assert (Hs : Py.forallb (fun c => negb (isword c)) (strip raw) = true)
    by (apply forallb_strip, H).
  rewrite sub_suffix_words, (strip_words_nonwords _ Hs).
  apply strip_all_space.
  assert (Hf : forall s,
             Py.forallb (fun c => negb (isword c)) s = true ->
             Py.forallb isspace
               (Py.filter (fun c => isword c || isspace c) s) = true).
  { induction s as [|c s IH]; intros Hn; [reflexivity|].
    simpl in Hn. apply andb_true_iff in Hn. destruct Hn as [Hc Hn].
    apply negb_true_iff in Hc. simpl. rewrite Hc. simpl.
    destruct (isspace c) eqn:Hsp; [simpl; rewrite Hsp|]; apply IH, Hn. }
  apply Hf, Hs.
Qed.

(** X16. A non-empty name without any word character (blanks and
    punctuation only) gives the empty string, not "Unknown_Company", unless
    the dictionary has the empty key. *)
Theorem normalize_without_word_characters (self : CompanyNormalizer)
    (raw : string) :
  raw <> "" ->
  Py.forallb (fun c => negb (isword c)) raw = true ->
  (forall k v, In (k, v) (mappings self) -> k <> "") ->
  normalize self (Some raw) = "".
Proof.
  intros Hne Hraw Hkeys. destruct raw as [|c raw]; [congruence|].
  unfold normalize. rewrite (clean_name_nonwords _ Hraw).
  rewrite lookup_unmatched; [reflexivity|].
  intros k v Hin E. apply (Hkeys k v Hin).
  destruct k; [reflexivity|discriminate].
Qed.

Lemma normalize_without_word_characters_witness :
  normalize Examples.home_depot (Some " - & - ") = "".
Proof.
  apply (normalize_without_word_characters Examples.home_depot " - & - ").
  - discriminate.
  - reflexivity.
  - intros k v [H|[]]. injection H as <- <-. discriminate.
Defined.

(** X17. Whitespace around a name changes nothing: a name and its trimmed
    form normalize alike, when the trimmed form is not empty. *)
Theorem normalize_ignores_outer_whitespace (self : CompanyNormalizer)
    (raw : string) :
  strip raw <> "" ->
  normalize self (Some (strip raw)) = normalize self (Some raw).
Proof.
  intros Hne.
  assert (Hc : clean_name (strip raw) = clean_name raw)
    by (unfold clean_name; now rewrite strip_idem).
  destruct raw as [|c raw]; [reflexivity|].
  destruct (strip (String c raw)) as [|d r] eqn:Hs; [congruence|].
  unfold normalize. rewrite Hc. reflexivity.
Qed.

Lemma normalize_ignores_outer_whitespace_witness :
  normalize Examples.home_depot (Some (strip "  Home Depot LLC  "))
  = normalize Examples.home_depot (Some "  Home Depot LLC  ").
Proof.
  apply (normalize_ignores_outer_whitespace Examples.home_depot
           "  Home Depot LLC  ").
  discriminate.
Defined.

(** * The document service *)

(** The texts of the pages, when every page can be read. *)
Lemma read_pages_closed (pages : list (PyException + string)) :
  forall text : string,
    Processor.read_pages text pages
    = match ClosedForms.page_texts pages with
      | inr texts => inr (text ++ ClosedForms.join_pages texts)%string
      | inl e => inl e
      end.
Proof.
  induction pages as [|[e|t] pages IH]; intros text; simpl.
  - now rewrite append_empty_r.
  - reflexivity.
  - rewrite IH. destruct (ClosedForms.page_texts pages); [reflexivity|].
    simpl. now rewrite !append_assoc.
Qed.

Lemma extract_text_closed (doc : Processor.Document) :
  Processor.extract_text doc
  = match doc with
    | inl _ => ""
    | inr pages =>
        match ClosedForms.page_texts pages with
        | inr texts => strip (ClosedForms.join_pages texts)
        | inl _ => ""
        end
    end.
Proof.
  destruct doc as [e|pages]; [reflexivity|].
  unfold Processor.extract_text. rewrite read_pages_closed.
  destruct (ClosedForms.page_texts pages); reflexivity.
Qed.

(** X18. [extract_text] gives the empty text when the document cannot be
    opened and when any page cannot be read (the text of the pages read
    before it is dropped); otherwise it gives the texts of the pages, each
    followed by a newline, trimmed at both ends. *)
Theorem extract_text_all_or_nothing (doc : Processor.Document) :
  (forall e, doc = inl e -> Processor.extract_text doc = "")
  /\ (forall pages e,
        doc = inr pages -> ClosedForms.page_texts pages = inl e ->
        Processor.extract_text doc = "")
  /\ (forall pages texts,
        doc = inr pages -> ClosedForms.page_texts pages = inr texts ->
        Processor.extract_text doc = strip (ClosedForms.join_pages texts)).
Proof.
  repeat split; intros; subst doc; rewrite extract_text_closed;
    try reflexivity; now rewrite H0.
Qed.

(** X19. The text extracted never starts or ends with whitespace:
    trimming it again changes nothing. *)
Theorem extract_text_is_trimmed (doc : Processor.Document) :
  strip (Processor.extract_text doc) = Processor.extract_text doc.
Proof.
  unfold Processor.extract_text. destruct doc as [e|pages]; [reflexivity|].
  destruct (Processor.read_pages "" pages); [reflexivity|apply strip_idem].
Qed.

Lemma join_blank (texts : list string) :
  List.forallb (Py.forallb isspace) texts = true ->
  Py.forallb isspace (ClosedForms.join_pages texts) = true.
Proof.
  induction texts as [|t texts IH]; intros H; [reflexivity|].
  simpl in H. apply andb_true_iff in H. destruct H as [Ht H].
  cbn [ClosedForms.join_pages].
  rewrite !forallb_append, Ht, (IH H). reflexivity.
Qed.

(** A document whose pages hold no text but whitespace gives the empty
    text. *)
Lemma extract_text_blank (texts : list string) :
  List.forallb (Py.forallb isspace) texts = true ->
  Processor.extract_text (inr (map inr texts)) = "".
Proof.
  intros H. rewrite extract_text_closed.
  assert (Hp : forall l : list string,
             @ClosedForms.page_texts (map inr l) = inr l).
  { induction l as [|t l IH]; [reflexivity|]. simpl. now rewrite IH. }
  rewrite Hp. apply strip_all_space, join_blank, H.
Qed.

(** X20. For a document whose pages hold no text but whitespace (a scan
    without a text layer) the extracted text is empty, so with the OpenAI
    backend Tier 1 sends nothing: [process] returns the outcome of the image
    call, the only request made, or raises when there is no usable image. *)
Theorem scanned_document_goes_to_vision (b : OpenAIBackend)
    (threshold : float) (texts : list string) (image_bytes : option bytes)
    (rt : Runtime) :
  List.forallb (Py.forallb isspace) texts = true ->
  let self := {| backend := b; confidence_threshold := threshold |} in
  let text := Processor.extract_text (inr (map inr texts)) in
  text = ""
  /\ fst (process self text image_bytes rt)
     = (if truthy_bytes image_bytes
        then match fst (extract_invoice_data b None image_bytes
                          (provider rt)) with
             | inr vision_result => inr (vision_result, TIER_2)
             | inl e => inl e
             end
        else inl no_image_error)
  /\ requests (provider (snd (process self text image_bytes rt)))
     = requests (provider rt)
       ++ (if truthy_bytes image_bytes
           then [ {| model := MODEL_B_NAME (openai_settings b);
                     messages :=
                       fst (openai_prepare b None image_bytes) |} ]
           else []).
Proof.
  intros Hblank self text. unfold text.
  rewrite (extract_text_blank texts Hblank). split; [reflexivity|].
  pose proof (process_run self "" image_bytes rt) as H. cbv zeta in H.
  change (extract_invoice_data (backend self) (Some "") None (provider rt))
    with (@inl PyException PyObject (UnboundLocalError "model"), provider rt)
    in H.
  cbv iota beta in H. unfold self in H. cbn [backend] in H.
  destruct (extract_invoice_data b None image_bytes (provider rt))
    as [r2 p2] eqn:H2.
  fold self in H. rewrite H. clear H.
  destruct (truthy_bytes image_bytes) eqn:Himg; cbn [fst snd provider].
  - split; [destruct r2; reflexivity|].
    unfold extract_invoice_data, OpenAI_extract, openai_prepare in H2 |- *.
    rewrite Himg in H2 |- *. rewrite andb_false_r in H2 |- *.
    cbn in H2 |- *. injection H2 as _ <-. reflexivity.
  - split; [reflexivity|]. now rewrite app_nil_r.
Qed.

(** * Splitting *)

Import Splitter.

Lemma endswith_refl (s : string) : endswith s s = true.
Proof. destruct s; cbn [endswith]; now rewrite String.eqb_refl. Qed.

Lemma endswith_append (s t : string) : endswith (s ++ t) t = true.
Proof.
  induction s as [|c s IH]; [apply endswith_refl|].
  cbn [append endswith]. rewrite IH. apply orb_true_r.
Qed.

Lemma lower_append (s t : string) :
  lower (s ++ t) = (lower s ++ lower t)%string.
Proof. induction s as [|c s IH]; [reflexivity|]. simpl. now rewrite IH. Qed.

Lemma ensure_pdf_ends (name : string) :
  endswith (lower (ensure_pdf name)) ".pdf" = true.
Proof.
  unfold ensure_pdf.
  destruct (endswith (lower name) ".pdf") eqn:E; simpl; [exact E|].
  rewrite lower_append. apply endswith_append.
Qed.

(** X21. The name [split_pdf] writes always ends in ".pdf", whatever the
    case of the letters: a name that does already is kept as it is, any other
    gets ".pdf" appended, and doing it twice changes nothing more. *)
Theorem ensure_pdf_extension (name : string) :
  endswith (lower (ensure_pdf name)) ".pdf" = true
  /\ ensure_pdf (ensure_pdf name) = ensure_pdf name
  /\ (ensure_pdf name = name \/ ensure_pdf name = (name ++ ".pdf")%string)
  /\ (endswith (lower name) ".pdf" = true <-> ensure_pdf name = name).
Proof.
  split; [apply ensure_pdf_ends|]. split.
  - unfold ensure_pdf at 1. now rewrite ensure_pdf_ends.
  - unfold ensure_pdf.
    destruct (endswith (lower name) ".pdf") eqn:E; simpl.
    + split; [now left|]. split; reflexivity.
    + split; [now right|]. split; [discriminate|].
      intros H. exfalso.
      apply (f_equal String.length) in H. rewrite length_append in H.
      simpl in H. lia.
Qed.

Lemma new_filename_kept (standardized_company po_number invoice_number
                              : string) :
  ensure_pdf (Main.new_filename standardized_company po_number
                invoice_number)
  = Main.new_filename standardized_company po_number invoice_number.
Proof.
  unfold ensure_pdf, Main.new_filename.
  rewrite !lower_append.
  rewrite <- !append_assoc. change (lower ".pdf") with ".pdf".
  now rewrite endswith_append.
Qed.

Section SplitProperties.
Context {Doc Disk : Type} {F : Fitz Doc Disk}.

Lemma split_loop_outputs (dir : string) (src : Doc)
    (jobs : list (list Z * string)) :
  forall (acc paths : list Path) (disk disk' : Disk),
    split_loop dir src jobs acc disk = (inr paths, disk') ->
    paths = acc ++ map (fun job =>
                          {| directory := dir;
                             name := ensure_pdf (snd job) |}) jobs.
Proof.
  induction jobs as [|[pages n] jobs IH]; intros acc paths disk disk' H.
  - injection H as <- _. now rewrite app_nil_r.
  - cbn [split_loop] in H.
    destruct (insert_pages fitz_new src pages); [discriminate|].
    destruct (save d {| directory := dir; name := ensure_pdf n |} disk)
      as [[e|] disk1]; [discriminate|].
    apply IH in H. rewrite H, <- app_assoc. reflexivity.
Qed.

Lemma snd_combine {A C : Type} (l1 : list A) :
  forall l2 : list C,
    map snd (combine l1 l2) = firstn (List.length l1) l2.
Proof.
  induction l1 as [|a l1 IH]; intros [|c l2]; simpl; try reflexivity.
  now rewrite IH.
Qed.

Lemma split_pdf_paths (dir source_path : string)
    (page_ranges : list (list Z)) (output_names : list string)
    (disk disk' : Disk) (paths : list Path) :
  split_pdf dir source_path page_ranges output_names disk
  = (inr paths, disk') ->
  paths = map (fun n => {| directory := dir; name := ensure_pdf n |})
            (firstn (List.length page_ranges) output_names).
Proof.
  unfold split_pdf. intros H.
  destruct (fitz_open source_path disk) as [e|src]; [discriminate|].
  apply split_loop_outputs in H. simpl in H.
  rewrite H, <- snd_combine, map_map. reflexivity.
Qed.

(** X22. When [split_pdf] returns, it returns one path per pair of a page
    range and a name, in order: as many as the shorter of the two lists has
    entries (what is left of the longer one is ignored), each in the processed
    directory under the name with its ".pdf" ensured. *)
Theorem split_pdf_outputs (dir source_path : string)
    (page_ranges : list (list Z)) (output_names : list string)
    (disk disk' : Disk) (paths : list Path) :
  split_pdf dir source_path page_ranges output_names disk
  = (inr paths, disk') ->
  paths = map (fun n => {| directory := dir; name := ensure_pdf n |})
            (firstn (List.length page_ranges) output_names)
  /\ List.length paths
     = Nat.min (List.length page_ranges) (List.length output_names).
Proof.
  intros H. pose proof (split_pdf_paths _ _ _ _ _ _ _ H) as Hp.
  split; [exact Hp|].
  rewrite Hp, length_map, length_firstn. reflexivity.
Qed.

(** X23. The file name the task builds ends in ".pdf": [split_pdf] writes
    the one document under exactly that name. *)
Theorem split_keeps_task_filename (dir source_path : string)
    (pages : list Z) (company po_number invoice_number : string)
    (disk disk' : Disk) (paths : list Path) :
  split_pdf dir source_path [pages]
    [Main.new_filename company po_number invoice_number] disk
  = (inr paths, disk') ->
  paths = [ {| directory := dir;
               name := Main.new_filename company po_number
                         invoice_number |} ].
Proof.
  intros H. apply split_pdf_paths in H. simpl in H.
  now rewrite new_filename_kept in H.
Qed.

End SplitProperties.

(** * The background task *)

Import Main.

Lemma get_job_id (d : Database) (job_id : Z) (job : Job) :
  get_job d job_id = Some job -> id job = job_id.
Proof.
  unfold get_job. intros H. apply find_some in H. destruct H as [_ H].
  now apply Z.eqb_eq.
Qed.

Lemma get_job_commit (d : Database) (job_id : Z) (job0 job : Job) :
  id job = job_id ->
  get_job d job_id = Some job0 ->
  get_job (commit_job job d) job_id = Some job.
Proof.
  intros <-. unfold get_job, commit_job. simpl.
  induction (jobs d) as [|j l IH]; simpl; [discriminate|].
  destruct (Z.eqb (id j) (id job)) eqn:E.
  - intros _. now rewrite Z.eqb_refl.
  - rewrite E. exact IH.
Qed.

Lemma get_job_add_invoice (d : Database) (invoice : Invoice) (job_id : Z) :
  get_job (add_invoice invoice d) job_id = get_job d job_id.
Proof. reflexivity. Qed.

Lemma get_job_commit_other (d : Database) (job : Job) (other : Z) :
  other <> id job ->
  get_job (commit_job job d) other = get_job d other.
Proof.
  intros Hne. unfold get_job, commit_job. simpl.
  induction (jobs d) as [|j l IH]; simpl; [reflexivity|].
  destruct (Z.eqb (id j) (id job)) eqn:E.
  - apply Z.eqb_eq in E.
    destruct (Z.eqb_spec (id job) other); [congruence|].
    destruct (Z.eqb_spec (id j) other); [congruence|]. exact IH.
  - destruct (Z.eqb (id j) other); [reflexivity|exact IH].
Qed.

Section TaskProperties.
Context {B Doc Disk : Type} {E : LLMBackend B} {F : Fitz Doc Disk}.
Variable PROCESSED_DIR : string.
Variable ai_service : CascadeService B.
Variable normalizer : CompanyNormalizer.
Variable str : TaskException -> string.

Let task := process_pdf_task PROCESSED_DIR ai_service normalizer str.

(** X24. For a job that exists, the task leaves it [COMPLETED] or [FAILED],
    never [PROCESSING]: completed with exactly one invoice added for it and
    its error message as before, or failed with the message of the exception
    and no invoice added. Its id, file name and two dates stay as they were,
    and no other job changes. *)
Theorem task_settles_the_job (job_id : Z) (file_path : string)
    (w : World Disk) (job : Job) :
  get_job (db w) job_id = Some job ->
  exists job',
    get_job (db (task job_id file_path w)) job_id = Some job'
    /\ id job' = id job /\ filename job' = filename job
    /\ created_at job' = created_at job /\ updated_at job' = updated_at job
    /\ ((status job' = COMPLETED
         /\ error_message job' = error_message job
         /\ exists invoice,
              invoices (db (task job_id file_path w))
              = invoices (db w) ++ [invoice]
              /\ Main.job_id invoice = job_id)
        \/ (status job' = FAILED
            /\ (exists e, error_message job' = Some (str e))
            /\ invoices (db (task job_id file_path w)) = invoices (db w)))
    /\ forall other,
         other <> job_id ->
         get_job (db (task job_id file_path w)) other
         = get_job (db w) other.
Proof.
  intros Hjob. pose proof (get_job_id _ _ _ Hjob) as Hid.
  unfold task, process_pdf_task. rewrite Hjob.
  set (running := set_status job PROCESSING).
  assert (Hrun : get_job (commit_job running (db w)) job_id = Some running)
    by (apply (get_job_commit _ _ job); [exact Hid|exact Hjob]).
  destruct (extract_and_split PROCESSED_DIR ai_service normalizer running
              file_path (disk w) (runtime w))
    as [[[e|invoice] disk1] rt1] eqn:Hx; cbn [db].
  - exists (set_error_message (set_status running FAILED) (str e)).
    split; [apply (get_job_commit _ _ running); [exact Hid|exact Hrun]|].
    repeat split; try reflexivity.
    + right. repeat split. now exists e.
    + intros other Hne.
      rewrite !get_job_commit_other; [reflexivity| |]; simpl; congruence.
  - exists (set_status running COMPLETED).
    split; [apply (get_job_commit _ _ running); [exact Hid|exact Hrun]|].
    repeat split; try reflexivity.
    + left. repeat split. exists invoice. split; [reflexivity|].
      unfold extract_and_split in Hx.
      destruct (render_page_to_image file_path 0 (disk w));
        [discriminate|].
      destruct (process ai_service _ (Some b) (runtime w))
        as [[e|[[|m] tier]] rt2]; try discriminate.
      destruct (split_pdf PROCESSED_DIR file_path [[0%Z]] _ (disk w))
        as [[e|[|p ps]] disk2]; try discriminate.
      injection Hx as <- _ _. simpl. exact Hid.
    + intros other Hne.
      rewrite get_job_commit_other, get_job_add_invoice,
        get_job_commit_other; [reflexivity| |]; simpl; congruence.
Qed.

(** The job as the task leaves it when the [try] raised [e]. *)
Lemma task_failure (job_id : Z) (file_path : string) (w : World Disk)
    (job : Job) (e : TaskException) (disk1 : Disk) (rt1 : Runtime) :
  get_job (db w) job_id = Some job ->
  extract_and_split PROCESSED_DIR ai_service normalizer
    (set_status job PROCESSING) file_path (disk w) (runtime w)
  = (inl e, disk1, rt1) ->
  get_job (db (task job_id file_path w)) job_id
  = Some {| id := id job; filename := filename job; status := FAILED;
            created_at := created_at job; updated_at := updated_at job;
            error_message := Some (str e) |}
  /\ invoices (db (task job_id file_path w)) = invoices (db w)
  /\ disk (task job_id file_path w) = disk1
  /\ runtime (task job_id file_path w) = rt1.
Proof.
  intros Hjob Hx. pose proof (get_job_id _ _ _ Hjob) as Hid.
  unfold task, process_pdf_task. rewrite Hjob, Hx. cbn [db disk runtime].
  repeat split.
  apply (get_job_commit _ _ (set_status job PROCESSING)); [exact Hid|].
  apply (get_job_commit _ _ job); [exact Hid|exact Hjob].
Qed.

(** X25. When the first page cannot be rendered the job fails with that
    exception's message before any backend call: the providers' record, the
    files and the invoices are as before. *)
Theorem task_render_failure (job_id : Z) (file_path : string)
    (w : World Disk) (job : Job) (e : PyException) :
  get_job (db w) job_id = Some job ->
  render_page_to_image file_path 0 (disk w) = inl e ->
  get_job (db (task job_id file_path w)) job_id
  = Some {| id := id job; filename := filename job; status := FAILED;
            created_at := created_at job; updated_at := updated_at job;
            error_message := Some (str (Raised e)) |}
  /\ invoices (db (task job_id file_path w)) = invoices (db w)
  /\ disk (task job_id file_path w) = disk w
  /\ runtime (task job_id file_path w) = runtime w.
Proof.
  intros Hjob Hr. apply task_failure; [exact Hjob|].
  unfold extract_and_split. now rewrite Hr.
Qed.

(** X26. When the page renders, the cascade returns metadata and the split
    succeeds, the job is [COMPLETED] and the one invoice added holds the
    normalized company name, the numbers, confidence and tier as the cascade
    returned them, the extracted text, and the path of the file
    "<company> PO<po> INV<invoice>.pdf" in the processed directory. *)
Theorem task_success (job_id : Z) (file_path : string) (w : World Disk)
    (job : Job) (image_bytes : bytes) (metadata : InvoiceMetadata)
    (tier : TierUsed) (rt1 : Runtime) (paths : list Path) (disk1 : Disk) :
  let text := Processor.extract_text (read_document file_path (disk w)) in
  let company :=
    normalize normalizer (Some (Schemas.company_name metadata)) in
  let new_name :=
    new_filename company (Schemas.po_number metadata)
      (Schemas.invoice_number metadata) in
  get_job (db w) job_id = Some job ->
  render_page_to_image file_path 0 (disk w) = inr image_bytes ->
  process ai_service text (Some image_bytes) (runtime w)
  = (inr (Meta metadata, tier), rt1) ->
  split_pdf PROCESSED_DIR file_path [[0%Z]] [new_name] (disk w)
  = (inr paths, disk1) ->
  get_job (db (task job_id file_path w)) job_id
  = Some {| id := id job; filename := filename job; status := COMPLETED;
            created_at := created_at job; updated_at := updated_at job;
            error_message := error_message job |}
  /\ invoices (db (task job_id file_path w))
     = invoices (db w)
       ++ [ {| Main.job_id := job_id;
               Main.company_name := company;
               Main.po_number := Schemas.po_number metadata;
               Main.invoice_number := Schemas.invoice_number metadata;
               tier_used := tier;
               raw_text := Some text;
               confidence_score := Schemas.confidence metadata;
               original_split_path :=
                 {| directory := PROCESSED_DIR; name := new_name |} |} ]
  /\ disk (task job_id file_path w) = disk1
  /\ runtime (task job_id file_path w) = rt1.
Proof.
  intros text company new_name Hjob Hr Hp Hs.
  pose proof (get_job_id _ _ _ Hjob) as Hid.
  pose proof (split_pdf_paths _ _ _ _ _ _ _ Hs) as Hpaths.
  simpl in Hpaths. unfold new_name in Hpaths.
  rewrite new_filename_kept in Hpaths. fold new_name in Hpaths.
  unfold task, process_pdf_task. rewrite Hjob.
  unfold extract_and_split. rewrite Hr. fold text. rewrite Hp.
  fold company. fold new_name. rewrite Hs, Hpaths.
  cbn [db disk runtime]. repeat split.
  - apply (get_job_commit _ _ (set_status job PROCESSING)); [exact Hid|].
    rewrite get_job_add_invoice.
    apply (get_job_commit _ _ job); [exact Hid|exact Hjob].
  - simpl. now rewrite Hid.
Qed.

End TaskProperties.

(** What the OpenAI backend returns is what the provider sent: an
    [InvoiceMetadata]. *)
Lemma configured_returns_metadata (b : OpenAIBackend)
    (text : option string) (image_bytes : option bytes) (p p' : Provider)
    (obj : PyObject) :
  extract_invoice_data (UseOpenAI b) text image_bytes p = (inr obj, p') ->
  exists m, obj = Meta m.
Proof.
  cbv [extract_invoice_data Configured_extract OpenAI_extract].
  destruct (openai_prepare b text image_bytes) as [messages [model|]];
    [|unfold raise; discriminate].
  unfold create.
  destruct (reply p (requests p) _) as [e|m]; [discriminate|].
  intros H. injection H as <- _. now exists m.
Qed.

(** X27. A service that [CascadeService()] built is on the OpenAI backend,
    and [process] on it never returns [None]: what it returns is an
    [InvoiceMetadata], the Tier 1 one or the Tier 2 one, so the attribute
    reads the task makes on the result find their attribute. *)
Theorem built_service_returns_metadata (environ : Environ)
    (settings : Settings) (threshold : float)
    (self : CascadeService ConfiguredBackend) (text : string)
    (image_bytes : option bytes) (rt rt' : Runtime) (obj : PyObject)
    (tier : TierUsed) :
  Cascade.init environ settings threshold = inr self ->
  process self text image_bytes rt = (inr (obj, tier), rt') ->
  exists b, backend self = UseOpenAI b /\ exists m, obj = Meta m.
Proof.
  unfold Cascade.init. intros Hinit Hrun.
  destruct (get_llm_backend environ settings) as [e|cb] eqn:Hb;
    [discriminate|].
  apply get_llm_backend_returns in Hb. destruct Hb as (_ & -> & _).
  injection Hinit as <-. eexists. split; [reflexivity|].
  pose proof (process_run
                {| backend := UseOpenAI {| openai_settings := settings |};
                   confidence_threshold := threshold |}
                text image_bytes rt) as Hp.
  cbv zeta in Hp. cbn [backend] in Hp.
  destruct (extract_invoice_data (UseOpenAI _) (Some text) None (provider rt))
    as [r1 p1] eqn:H1.
  destruct (extract_invoice_data (UseOpenAI _) None image_bytes p1)
    as [r2 p2] eqn:H2.
  rewrite Hp in Hrun. clear Hp.
  assert (K1 : forall o, r1 = inr o -> exists m, o = Meta m).
  { intros o ->. now apply configured_returns_metadata in H1. }
  assert (K2 : forall o, r2 = inr o -> exists m, o = Meta m).
  { intros o ->. now apply configured_returns_metadata in H2. }
  destruct r1 as [e1|o1]; destruct r2 as [e2|o2];
    repeat match type of Hrun with
           | context [match ?o with PyNone => _ | Meta _ => _ end] =>
               destruct o
           | context [if ?c then _ else _] => destruct c
           end;
    try discriminate; injection Hrun as <- _ _;
    first [ now apply K1 | now apply K2 ].
Qed.

(** ** Examples *)

Lemma scanned_document_goes_to_vision_witness :
  let self := {| backend := Examples.openai;
                 confidence_threshold := default_threshold |} in
  let rt := Examples.runtime_answering (inr (Examples.meta 1))
              (inr (Examples.meta 0.5)) in
  let text := Processor.extract_text (inr (map inr [" "; ""; newline])) in
  text = ""
  /\ fst (process self text Examples.png rt)
     = (if truthy_bytes Examples.png
        then match fst (extract_invoice_data Examples.openai None
                          Examples.png (provider rt)) with
             | inr vision_result => inr (vision_result, TIER_2)
             | inl e => inl e
             end
        else inl no_image_error)
  /\ requests (provider (snd (process self text Examples.png rt)))
     = requests (provider rt)
       ++ (if truthy_bytes Examples.png
           then [ {| model := MODEL_B_NAME (openai_settings Examples.openai);
                     messages :=
                       fst (openai_prepare Examples.openai None
                              Examples.png) |} ]
           else []).
Proof.
  apply (scanned_document_goes_to_vision Examples.openai default_threshold
           [" "; ""; newline] Examples.png
           (Examples.runtime_answering (inr (Examples.meta 1))
              (inr (Examples.meta 0.5)))).
  reflexivity.
Defined.

Lemma split_pdf_outputs_witness :
  [ {| directory := "data/processed"; name := "first.pdf" |};
    {| directory := "data/processed"; name := "Second.PDF" |} ]
  = map (fun n => {| directory := "data/processed"; name := ensure_pdf n |})
      (firstn 2 ["first"; "Second.PDF"; "unused"])
  /\ 2 = Nat.min 2 3.
Proof.
  apply (split_pdf_outputs (F := Samples.sample_fitz) "data/processed"
           Samples.scan
           [[0%Z; 1%Z]; [1%Z]] ["first"; "Second.PDF"; "unused"]
           Samples.sample_disk
           [ ("data/processed/Second.PDF", ["page two"]);
             ("data/processed/first.pdf",
              ["INVOICE 42 The Home Depot, Inc."; "page two"]);
             (Samples.scan,
              ["INVOICE 42 The Home Depot, Inc."; "page two"]) ]).
  reflexivity.
Defined.

Lemma split_keeps_task_filename_witness :
  [ {| directory := "data/processed";
       name := "TheHomeDepot PO7 INV42.pdf" |} ]
  = [ {| directory := "data/processed";
         name := Main.new_filename "TheHomeDepot" "7" "42" |} ].
Proof.
  apply (split_keeps_task_filename (F := Samples.sample_fitz)
           "data/processed" Samples.scan [0%Z]
           "TheHomeDepot" "7" "42" Samples.sample_disk
           (("data/processed/TheHomeDepot PO7 INV42.pdf",
             ["INVOICE 42 The Home Depot, Inc."]) :: Samples.sample_disk)).
  reflexivity.
Defined.

Lemma task_settles_the_job_witness :
  let rt := Examples.runtime_answering (inr (Examples.meta 1))
              (inl Examples.refused) in
  exists job',
    get_job (db (Samples.run Samples.sample_disk rt)) 7 = Some job'
    /\ id job' = 7%Z /\ filename job' = "scan.pdf"
    /\ created_at job' = 1700000000%Z /\ updated_at job' = 1700000000%Z
    /\ ((status job' = COMPLETED
         /\ error_message job' = None
         /\ exists invoice,
              invoices (db (Samples.run Samples.sample_disk rt))
              = [] ++ [invoice]
              /\ Main.job_id invoice = 7%Z)
        \/ (status job' = FAILED
            /\ (exists e, error_message job' = Some (Samples.sample_str e))
            /\ invoices (db (Samples.run Samples.sample_disk rt)) = []))
    /\ forall other,
         other <> 7%Z ->
         get_job (db (Samples.run Samples.sample_disk rt)) other
         = get_job Samples.sample_db other.
Proof.
  apply (task_settles_the_job (F := Samples.sample_fitz) "data/processed"
           Examples.service Examples.home_depot Samples.sample_str 7
           Samples.scan
           (Samples.world Samples.sample_disk
              (Examples.runtime_answering (inr (Examples.meta 1))
                 (inl Examples.refused)))
           Samples.job7).
  reflexivity.
Defined.

(** The scan is missing: the job fails, and no provider is asked. *)
Lemma task_render_failure_witness :
  let rt := Examples.runtime_answering (inr (Examples.meta 1))
              (inl Examples.refused) in
  get_job (db (Samples.run [] rt)) 7
  = Some {| id := 7; filename := "scan.pdf"; status := FAILED;
            created_at := 1700000000; updated_at := 1700000000;
            error_message := Some "no such file" |}
  /\ invoices (db (Samples.run [] rt)) = []
  /\ disk (Samples.run [] rt) = []
  /\ runtime (Samples.run [] rt) = rt.
Proof.
  apply (task_render_failure (F := Samples.sample_fitz) "data/processed"
           Examples.service Examples.home_depot Samples.sample_str 7
           Samples.scan
           (Samples.world []
              (Examples.runtime_answering (inr (Examples.meta 1))
                 (inl Examples.refused)))
           Samples.job7 (ValueError "no such file"));
    reflexivity.
Defined.

Lemma built_service_returns_metadata_witness :
  exists b,
    backend {| backend := UseOpenAI Examples.openai;
               confidence_threshold := default_threshold |}
    = UseOpenAI b
    /\ exists m, Meta (Examples.meta 0.5) = Meta m.
Proof.
  apply (built_service_returns_metadata Examples.bare Examples.settings
           default_threshold
           {| backend := UseOpenAI Examples.openai;
              confidence_threshold := default_threshold |}
           "INVOICE 42" Examples.png
           (Examples.runtime_answering (inr (Examples.meta 0.25))
              (inr (Examples.meta 0.5)))
           (snd (process {| backend := UseOpenAI Examples.openai;
                            confidence_threshold := default_threshold |}
                   "INVOICE 42" Examples.png
                   (Examples.runtime_answering (inr (Examples.meta 0.25))
                      (inr (Examples.meta 0.5)))))
           (Meta (Examples.meta 0.5)) TIER_2);
    reflexivity.
Defined.

Lemma task_success_witness :
  let rt := Examples.runtime_answering (inr (Examples.meta 1))
              (inl Examples.refused) in
  get_job (db (Samples.run Samples.sample_disk rt)) 7
  = Some {| id := 7; filename := "scan.pdf"; status := COMPLETED;
            created_at := 1700000000; updated_at := 1700000000;
            error_message := None |}
  /\ invoices (db (Samples.run Samples.sample_disk rt))
     = [] ++ [ {| Main.job_id := 7;
                  Main.company_name := "TheHomeDepot";
                  Main.po_number := "PO-7";
                  Main.invoice_number := "INV-42";
                  tier_used := TIER_1;
                  raw_text :=
                    Some (Processor.extract_text
                            (read_document (F := Samples.sample_fitz)
                               Samples.scan Samples.sample_disk));
                  confidence_score := 1;
                  original_split_path :=
                    {| directory := "data/processed";
                       name := "TheHomeDepot POPO-7 INVINV-42.pdf" |} |} ]
  /\ disk (Samples.run Samples.sample_disk rt)
     = ("data/processed/TheHomeDepot POPO-7 INVINV-42.pdf",
        ["INVOICE 42 The Home Depot, Inc."]) :: Samples.sample_disk
  /\ runtime (Samples.run Samples.sample_disk rt)
     = snd (process Examples.service
              (Processor.extract_text
                 (read_document (F := Samples.sample_fitz)
                    Samples.scan Samples.sample_disk))
              Examples.png rt).
Proof.
  eapply (task_success (F := Samples.sample_fitz) "data/processed"
            Examples.service Examples.home_depot Samples.sample_str 7
            Samples.scan
            (Samples.world Samples.sample_disk
               (Examples.runtime_answering (inr (Examples.meta 1))
                  (inl Examples.refused)))
            Samples.job7 [x89; x50; x4e; x47] (Examples.meta 1) TIER_1);
    reflexivity.
Defined.

(** ** A failed split keeps what it wrote *)

Section SplitFailure.
Context {Doc Disk : Type} {F : Fitz Doc Disk}.

Lemma split_loop_app (dir : string) (src : Doc)
    (jobs1 jobs2 : list (list Z * string)) :
  forall (acc : list Path) (disk : Disk),
    split_loop dir src (jobs1 ++ jobs2) acc disk
    = match split_loop dir src jobs1 acc disk with
      | (inr acc', disk') => split_loop dir src jobs2 acc' disk'
      | (inl e, disk') => (inl e, disk')
      end.
Proof.
  induction jobs1 as [|[pages n] jobs1 IH]; intros acc disk;
    [reflexivity|].
  cbn [app split_loop].
  destruct (insert_pages fitz_new src pages); [reflexivity|].
  destruct (save d {| directory := dir; name := ensure_pdf n |} disk)
    as [[e|] disk1]; [reflexivity|].
  apply IH.
Qed.

Lemma combine_app_same {A C : Type} (l1 l1' : list A) :
  forall l2 l2' : list C,
    List.length l1 = List.length l2 ->
    combine (l1 ++ l1') (l2 ++ l2') = combine l1 l2 ++ combine l1' l2'.
Proof.
  induction l1 as [|a l1 IH]; intros [|c l2] l2' Hlen;
    try discriminate; [reflexivity|].
  simpl. rewrite IH; [reflexivity|]. now injection Hlen.
Qed.

(** X28. [split_pdf] does not undo what it wrote: when the document of a
    later pair cannot be saved (a pair without pages, say: PyMuPDF does not
    save an empty document), it raises the exception of [save], and the
    file system is the one the pairs before it left, the files saved for
    them included, as the failed [save] left it. *)
Theorem split_pdf_no_rollback (dir source_path : string)
    (ranges1 ranges2 : list (list Z)) (names1 names2 : list string)
    (pages : list Z) (n : string) (src new_doc : Doc) (e : PyException)
    (disk disk1 disk2 : Disk) (paths : list Path) :
  List.length ranges1 = List.length names1 ->
  fitz_open source_path disk = inr src ->
  split_pdf dir source_path ranges1 names1 disk = (inr paths, disk1) ->
  insert_pages fitz_new src pages = inr new_doc ->
  save new_doc {| directory := dir; name := ensure_pdf n |} disk1
  = (Some e, disk2) ->
  split_pdf dir source_path (ranges1 ++ pages :: ranges2)
    (names1 ++ n :: names2) disk
  = (inl e, disk2).
Proof.
  intros Hlen Hopen Hfirst Hins Hsave. unfold split_pdf in *.
  rewrite Hopen in *.
  rewrite (combine_app_same _ _ _ _ Hlen), split_loop_app, Hfirst.
  cbn [combine split_loop]. now rewrite Hins, Hsave.
Qed.

End SplitFailure.

Lemma split_pdf_no_rollback_witness :
  split_pdf (F := Samples.sample_fitz) "data/processed" Samples.scan
    ([[0%Z]] ++ [] :: [[1%Z]]) (["first"] ++ "second" :: ["third"])
    Samples.sample_disk
  = (inl (ValueError "cannot save with zero pages"),
     ("data/processed/first.pdf", ["INVOICE 42 The Home Depot, Inc."])
     :: Samples.sample_disk).
Proof.
  apply (split_pdf_no_rollback (F := Samples.sample_fitz) "data/processed"
           Samples.scan [[0%Z]] [[1%Z]] ["first"] ["third"] [] "second"
           ["INVOICE 42 The Home Depot, Inc."; "page two"] []
           (ValueError "cannot save with zero pages") Samples.sample_disk
           (("data/processed/first.pdf", ["INVOICE 42 The Home Depot, Inc."])
            :: Samples.sample_disk)
           (("data/processed/first.pdf", ["INVOICE 42 The Home Depot, Inc."])
            :: Samples.sample_disk)
           [ {| directory := "data/processed"; name := "first.pdf" |} ]);
    reflexivity.
Defined.
